(** * Attribute-logic routing: [findTeamMembersMatchingAttributeLogic] and
      [evaluateRaqbLogic]

    A shallow embedding of
    [packages/lib/raqb/findTeamMembersMatchingAttributeLogic.ts] (the match
    orchestrator with its timing helper [asyncPerf]) and of the query
    evaluator [evaluateRaqbLogic] with its module-level [warnOnce] flag.

    JavaScript effects are written as explicit state passing: a computation
    takes a [World] (the warn-once flag, the console, the readings the
    performance clock will deliver) and either returns a value or throws. *)

From Stdlib Require Import ZArith List String Ascii DecimalString Bool
  Permutation Lia.
From stdpp Require Import base gmap strings.
Import ListNotations.

Local Open Scope Z_scope.
Local Open Scope string_scope.

Set Warnings "-register-all".

(** ** Data model *)

(** [RaqbLogicResult] (const enum of the evaluator module). *)
Inductive RaqbLogicResult : Type :=
| MATCH
| NO_MATCH
| LOGIC_NOT_FOUND_SO_MATCHED.

(** [TroubleshooterCase] (const enum of the orchestrator module). *)
Inductive TroubleshooterCase : Type :=
| IS_A_ROUTER
| NO_LOGIC_FOUND
| MATCH_RESULTS_READY
| MATCH_RESULTS_READY_WITH_FALLBACK
| MATCHES_ALL_MEMBERS_BECAUSE_OF_EMPTY_QUERY_VALUE
| MATCHES_ALL_MEMBERS.

(** The string each [TroubleshooterCase] member stands for. *)
Definition troubleshooterCaseValue (c : TroubleshooterCase) : string :=
  match c with
  | IS_A_ROUTER => "is-a-router"
  | NO_LOGIC_FOUND => "no-logic-found"
  | MATCH_RESULTS_READY => "match-results-ready"
  | MATCH_RESULTS_READY_WITH_FALLBACK => "match-results-ready-with-fallback"
  | MATCHES_ALL_MEMBERS_BECAUSE_OF_EMPTY_QUERY_VALUE =>
      "matches-all-members-because-of-empty-query-value"
  | MATCHES_ALL_MEMBERS => "matches-all-members"
  end.

(** Modelled from the spec: the declarations of [./types]
    ([AttributesQueryValue], [dynamicFieldValueOperands]) and of
    [getAttributes] ([Attribute], the per-member assignment) are imported
    by the source but not part of it.  Their shape follows the data model
    of the specification: a value is a text or a number, a member maps an
    attribute id to the ordered sequence of its assigned values, a query
    node is a group of nodes under AND/OR or a rule, and a rule's operand
    is a literal value set or a reference [DynamicRef source field]. *)
Inductive Value : Type :=
| VText (s : string)
| VNum (n : Z).

Inductive ValueType : Type := TText | TNumber | TOption | TMultiOption.

Record Attribute : Type := {
  attr_id : string;
  attr_name : string;
  attr_valueType : ValueType;
  attr_allowedOptionIds : list string
}.

Record TeamMember : Type := {
  userId : Z;
  attributes : gmap string (list Value)
}.

Inductive Combinator : Type := AND | OR.

Inductive Operator : Type :=
| EQUALS | NOT_EQUALS
| ANY_IN | NONE_IN
| IS_EMPTY | IS_NOT_EMPTY
| GREATER_THAN | LESS_THAN.

Inductive Operand : Type :=
| Literal (values : list Value)
| DynamicRef (source field : string).

Inductive QueryNode : Type :=
| Group (combinator : Combinator) (children : list QueryNode)
| Rule (attributeId : string) (operator : Operator) (operand : Operand).

(** [dynamicFieldValueOperands]: [operands[source][field]]. *)
Definition DynamicOperands : Type := gmap string (gmap string (list Value)).

(** A value typed [any] or [unknown] whose content the code never reads. *)
Inductive Json : Type :=
| JNull
| JBool (b : bool)
| JNum (n : Z)
| JStr (s : string)
| JArr (items : list Json)
| JObj (fields : list (string * Json)).

(** ** The world: what the code can observe and change *)

Record World : Type := {
  warned : bool;           (* the [warned] flag captured by [warnOnce] *)
  console : list string;   (* what [console.warn] has printed, oldest first *)
  clock : list Z           (* readings [performance.now] will deliver, in
                              microseconds; none left: the clock is gone *)
}.

Inductive Outcome (A : Type) : Type :=
| Returned (a : A) (w : World)
| Thrown (e : string) (w : World).
Arguments Returned {A} a w.
Arguments Thrown {A} e w.

Definition M (A : Type) : Type := World -> Outcome A.

Definition ret {A} (a : A) : M A := fun w => Returned a w.

Definition bind {A B} (m : M A) (k : A -> M B) : M B :=
  fun w => match m w with
           | Returned a w' => k a w'
           | Thrown e w' => Thrown e w'
           end.

Definition throw {A} (e : string) : M A := fun w => Thrown e w.

Notation "'let!' x ':=' m 'in' k" := (bind m (fun x => k))
  (at level 10, x name, m at level 100, k at level 200).

(** The value a computation returned, if it returned. *)
Definition returned {A} (o : Outcome A) : option A :=
  match o with
  | Returned a _ => Some a
  | Thrown _ _ => None
  end.

(** ** The evaluator module *)

Record EvaluateInput : Type := {
  queryValue : option QueryNode;            (* [unknown] *)
  queryBuilderConfig : Json;                (* [any] *)
  data : gmap string (list Value);          (* [Record<string, unknown>] *)
  beStrictWithEmptyLogic : option bool      (* optional *)
}.

Record EvaluateConfig : Type := { logLevel : Z }.

Definition evaluateDisabledMessage : string :=
  "evaluateRaqbLogic: React Awesome Query Builder evaluation is disabled. Falling back to default match behaviour.".

(** [warnOnce]: print the message the first time only. *)
Definition warnOnce (message : string) : M unit :=
  fun w =>
    if warned w then Returned tt w
    else Returned tt {| warned := true;
                        console := console w ++ [message];
                        clock := clock w |}.

(** [evaluateRaqbLogic(_input, _config = { logLevel: 1 })]. *)
Definition evaluateRaqbLogic (_input : EvaluateInput)
    (_config : option EvaluateConfig) : M RaqbLogicResult :=
  let _config := default {| logLevel := 1 |} _config in
  let! _ := warnOnce evaluateDisabledMessage in
  ret LOGIC_NOT_FOUND_SO_MATCHED.

(** Whether a result counts the member in: the two results that say
    "matched" do, [NO_MATCH] does not. *)
Definition isMatched (r : RaqbLogicResult) : bool :=
  match r with
  | MATCH | LOGIC_NOT_FOUND_SO_MATCHED => true
  | NO_MATCH => false
  end.

(** ** The orchestrator module *)

(** What [getAttributesAssignmentData] resolves to (the two fields the
    code reads). *)
Record AttributesAssignmentData : Type := {
  fetched_attributesOfTheOrg : list Attribute;
  attributesAssignedToTeamMembersWithOptions : list TeamMember
}.

Record AttributesData : Type := {
  attributesOfTheOrg : list Attribute;
  teamMembersWithAttributeOptionValuePerAttribute : list TeamMember
}.

Record RunAttributeLogicData : Type := {
  attributesQueryValue : option QueryNode;              (* [null] is [None] *)
  attributesData : AttributesData;
  dynamicFieldValueOperands : option DynamicOperands    (* optional *)
}.

Record RunAttributeLogicOptions : Type := { enableTroubleshooter : bool }.

(** The [data] object [runAttributeLogic] hands to the troubleshooter. *)
Record TroubleshooterPayload : Type := {
  reason : string;
  ts_attributesOfTheOrg : list Attribute;
  ts_teamMembersWithAttributeOptionValuePerAttribute : list TeamMember
}.

(** The object under the key [troubleshooter]: [{ type, data }]. *)
Record Troubleshooter : Type := {
  ts_type : TroubleshooterCase;
  ts_data : TroubleshooterPayload
}.

(** A [timeTaken] object: durations keyed by phase name. *)
Definition TimeTaken : Type := list (string * option Z).

Record RunAttributeLogicResult : Type := {
  logicBuildingWarnings : list string;
  run_teamMembersMatchingAttributeLogic : option (list Z);  (* [null] *)
  run_timeTaken : option TimeTaken;                          (* [null] *)
  troubleshooter : option Troubleshooter      (* the key is absent: [None] *)
}.

Record AttributesForLogic : Type := {
  forLogic_attributesOfTheOrg : list Attribute;
  forLogic_teamMembersWithAttributeOptionValuePerAttribute : list TeamMember;
  forLogic_timeTaken : option Z
}.

Record FindData : Type := {
  teamId : Z;
  orgId : Z;
  find_attributesQueryValue : option QueryNode;
  fallbackAttributesQueryValue : option QueryNode;
  find_dynamicFieldValueOperands : option DynamicOperands;
  isPreview : option bool
}.

Record FindOptions : Type := {
  enablePerf : option bool;
  concurrency : option Z;
  find_enableTroubleshooter : option bool
}.

(** The object [findTeamMembersMatchingAttributeLogic] resolves to.  The
    two last fields are the keys of the [troubleshooter] object, which the
    final spread [...(troubleshooter ?? {})] copies to the top level; they
    are absent when there is no such object. *)
Record FindResult : Type := {
  teamMembersMatchingAttributeLogic : option (list Z);
  checkedFallback : bool;
  mainAttributeLogicBuildingWarnings : list string;
  fallbackAttributeLogicBuildingWarnings : list string;
  timeTaken : TimeTaken;
  type_ : option TroubleshooterCase;
  data_ : option TroubleshooterPayload
}.

(** The own keys of a result object, in the order the literal lists them. *)
Definition resultKeys (r : FindResult) : list string :=
  ["teamMembersMatchingAttributeLogic"; "checkedFallback";
   "mainAttributeLogicBuildingWarnings";
   "fallbackAttributeLogicBuildingWarnings"; "timeTaken"]
  ++ match type_ r with Some _ => ["type"] | None => [] end
  ++ match data_ r with Some _ => ["data"] | None => [] end.

(** [performance.now()]: the next reading of the clock; throws when the
    clock is not there. *)
Definition performanceNow : M Z :=
  fun w =>
    match clock w with
    | [] => Thrown "performance.now is not available" w
    | t :: rest =>
        Returned t {| warned := warned w; console := console w; clock := rest |}
    end.

(** [asyncPerf(fn)]. *)
Definition asyncPerf {A} (fn : M A) : M (A * option Z) :=
  let! start := performanceNow in
  let! result := fn in
  let! end_ := performanceNow in
  ret (result, Some (end_ - start)).

(** [buildTroubleshooterData({ type, data })]: an object with the single
    key [troubleshooter]. *)
Definition buildTroubleshooterData (type : TroubleshooterCase)
    (data : TroubleshooterPayload) : Troubleshooter :=
  {| ts_type := type; ts_data := data |}.

Definition logicDisabledWarning : string :=
  "Attribute routing logic evaluation is disabled in this deployment.".

(** [runAttributeLogic(data, options)]. *)
Definition runAttributeLogic (data : RunAttributeLogicData)
    (options : RunAttributeLogicOptions) : M RunAttributeLogicResult :=
  let enableTroubleshooter := enableTroubleshooter options in
  let attributesOfTheOrg := attributesOfTheOrg (attributesData data) in
  let teamMembers :=
    teamMembersWithAttributeOptionValuePerAttribute (attributesData data) in
  (* Boolean(attributesQueryValue): an object is truthy, null is not *)
  let shouldWarnAboutMissingLogic : bool :=
    match attributesQueryValue data with Some _ => true | None => false end in
  ret {| logicBuildingWarnings :=
           if shouldWarnAboutMissingLogic then [logicDisabledWarning] else [];
         run_teamMembersMatchingAttributeLogic := None;
         run_timeTaken := None;
         troubleshooter :=
           if enableTroubleshooter
           then Some (buildTroubleshooterData NO_LOGIC_FOUND
                        {| reason := "Attribute routing logic disabled on server.";
                           ts_attributesOfTheOrg := attributesOfTheOrg;
                           ts_teamMembersWithAttributeOptionValuePerAttribute :=
                             teamMembers |})
           else None |}.

Section Orchestrator.

(** The data-fetch collaborator, imported from
    [@calcom/lib/service/attribute/server/getAttributes]: any computation
    from a team and an organisation id, which may fail. *)
Variable getAttributesAssignmentData : Z -> Z -> M AttributesAssignmentData.

(** [getAttributesForLogic({ teamId, orgId })]. *)
Definition getAttributesForLogic (teamId orgId : Z) : M AttributesForLogic :=
  let! timed := asyncPerf (getAttributesAssignmentData teamId orgId) in
  let '(result, ttAttributes) := timed in
  ret {| forLogic_attributesOfTheOrg := fetched_attributesOfTheOrg result;
         forLogic_teamMembersWithAttributeOptionValuePerAttribute :=
           attributesAssignedToTeamMembersWithOptions result;
         forLogic_timeTaken := ttAttributes |}.

(** [findTeamMembersMatchingAttributeLogic(data, options = {})]. *)
Definition findTeamMembersMatchingAttributeLogic (data : FindData)
    (options : option FindOptions) : M FindResult :=
  let options :=
    default {| enablePerf := None; concurrency := None;
               find_enableTroubleshooter := None |} options in
  let enableTroubleshooter := default false (find_enableTroubleshooter options) in
  let! forLogic := getAttributesForLogic (teamId data) (orgId data) in
  let ttGetAttributesForLogic := forLogic_timeTaken forLogic in
  let runAttributeLogicData :=
    {| attributesQueryValue := find_attributesQueryValue data;
       attributesData :=
         {| attributesOfTheOrg := forLogic_attributesOfTheOrg forLogic;
            teamMembersWithAttributeOptionValuePerAttribute :=
              forLogic_teamMembersWithAttributeOptionValuePerAttribute forLogic |};
       dynamicFieldValueOperands := find_dynamicFieldValueOperands data |} in
  let! run :=
    runAttributeLogic runAttributeLogicData
      {| enableTroubleshooter := enableTroubleshooter |} in
  ret {| teamMembersMatchingAttributeLogic :=
           run_teamMembersMatchingAttributeLogic run;
         checkedFallback := false;
         (* logicBuildingWarnings ?? [] : the field is never nullish *)
         mainAttributeLogicBuildingWarnings := logicBuildingWarnings run;
         fallbackAttributeLogicBuildingWarnings := [];
         timeTaken :=
           ("ttGetAttributesForLogic", ttGetAttributesForLogic)
           :: default [] (run_timeTaken run);
         type_ := ts_type <$> troubleshooter run;
         data_ := ts_data <$> troubleshooter run |}.

End Orchestrator.

(** ** The orchestration with the timing taken out

    The reference the timing instrumentation is compared with: the same
    two functions, with the fetch called directly instead of through
    [asyncPerf] and no duration to report. *)

Section OrchestratorUntimed.

Variable getAttributesAssignmentData : Z -> Z -> M AttributesAssignmentData.

Definition getAttributesForLogic_untimed (teamId orgId : Z)
    : M AttributesForLogic :=
  let! result := getAttributesAssignmentData teamId orgId in
  ret {| forLogic_attributesOfTheOrg := fetched_attributesOfTheOrg result;
         forLogic_teamMembersWithAttributeOptionValuePerAttribute :=
           attributesAssignedToTeamMembersWithOptions result;
         forLogic_timeTaken := None |}.

Definition findTeamMembersMatchingAttributeLogic_untimed (data : FindData)
    (options : option FindOptions) : M FindResult :=
  let options :=
    default {| enablePerf := None; concurrency := None;
               find_enableTroubleshooter := None |} options in
  let enableTroubleshooter := default false (find_enableTroubleshooter options) in
  let! forLogic := getAttributesForLogic_untimed (teamId data) (orgId data) in
  let! run :=
    runAttributeLogic
      {| attributesQueryValue := find_attributesQueryValue data;
         attributesData :=
           {| attributesOfTheOrg := forLogic_attributesOfTheOrg forLogic;
              teamMembersWithAttributeOptionValuePerAttribute :=
                forLogic_teamMembersWithAttributeOptionValuePerAttribute forLogic |};
         dynamicFieldValueOperands := find_dynamicFieldValueOperands data |}
      {| enableTroubleshooter := enableTroubleshooter |} in
  ret {| teamMembersMatchingAttributeLogic :=
           run_teamMembersMatchingAttributeLogic run;
         checkedFallback := false;
         mainAttributeLogicBuildingWarnings := logicBuildingWarnings run;
         fallbackAttributeLogicBuildingWarnings := [];
         timeTaken :=
           ("ttGetAttributesForLogic", forLogic_timeTaken forLogic)
           :: default [] (run_timeTaken run);
         type_ := ts_type <$> troubleshooter run;
         data_ := ts_data <$> troubleshooter run |}.

End OrchestratorUntimed.

(** The fields of a result that carry the routing decision: the matched
    members, [checkedFallback] and the two warning lists. *)
Definition meaning (r : FindResult)
    : option (list Z) * bool * list string * list string :=
  (teamMembersMatchingAttributeLogic r, checkedFallback r,
   mainAttributeLogicBuildingWarnings r,
   fallbackAttributeLogicBuildingWarnings r).

(** ** Members matched by the evaluator

    The matched set of a member snapshot: every member's attribute values
    go through [evaluateRaqbLogic] with the same query, in list order, and
    the members whose result counts as matched are kept. *)
Fixpoint matchedMemberIds (query : option QueryNode) (config : Json)
    (strict : option bool) (members : list TeamMember) : M (list Z) :=
  match members with
  | [] => ret []
  | member :: rest =>
      let! result :=
        evaluateRaqbLogic
          {| queryValue := query; queryBuilderConfig := config;
             data := attributes member; beStrictWithEmptyLogic := strict |}
          None in
      let! ids := matchedMemberIds query config strict rest in
      ret (if isMatched result then userId member :: ids else ids)
  end.

(** ** The evaluator and the operand resolver of the specification *)

Definition value_eqb (a b : Value) : bool :=
  match a, b with
  | VText s, VText t => String.eqb s t
  | VNum n, VNum m => Z.eqb n m
  | _, _ => false
  end.

Definition value_mem (v : Value) (vs : list Value) : bool :=
  existsb (value_eqb v) vs.

(** Modelled from the spec: the expression evaluator
    [evaluate(tree, memberValues) -> bool], for which the source has only
    the constant [evaluateRaqbLogic].  A rule reads the member's values for
    its attribute (none when unassigned).  [EQUALS]/[NOT_EQUALS] test the
    membership of the operand's single value, [ANY_IN]/[NONE_IN] whether the
    two value sets meet, [IS_EMPTY]/[IS_NOT_EMPTY] look at the number of
    assigned values only, the numeric comparisons apply to a single number
    on each side.  A rule whose operand is still a reference is
    indeterminate and does not match; an operator applied to an operand it
    is not valid for does not match either (fails closed). *)
Definition spec_evaluateRule (operator : Operator) (operand : Operand)
    (assigned : list Value) : bool :=
  match operator with
  | IS_EMPTY => match assigned with [] => true | _ => false end
  | IS_NOT_EMPTY => match assigned with [] => false | _ => true end
  | _ =>
      match operand with
      | DynamicRef _ _ => false
      | Literal values =>
          match operator with
          | EQUALS =>
              match values with [v] => value_mem v assigned | _ => false end
          | NOT_EQUALS =>
              match values with [v] => negb (value_mem v assigned) | _ => false end
          | ANY_IN => existsb (fun v => value_mem v values) assigned
          | NONE_IN => negb (existsb (fun v => value_mem v values) assigned)
          | GREATER_THAN =>
              match assigned, values with
              | [VNum a], [VNum b] => Z.ltb b a
              | _, _ => false
              end
          | LESS_THAN =>
              match assigned, values with
              | [VNum a], [VNum b] => Z.ltb a b
              | _, _ => false
              end
          | IS_EMPTY | IS_NOT_EMPTY => false
          end
      end
  end.

Fixpoint spec_evaluate (tree : QueryNode)
    (memberValues : gmap string (list Value)) : bool :=
  match tree with
  | Group AND children =>
      forallb (fun child => spec_evaluate child memberValues) children
  | Group OR children =>
      existsb (fun child => spec_evaluate child memberValues) children
  | Rule attributeId operator operand =>
      spec_evaluateRule operator operand
        (default [] (memberValues !! attributeId))
  end.

(** The members a tree matches under the evaluator of the specification. *)
Definition spec_matched (tree : QueryNode) (members : list TeamMember)
    : list Z :=
  map userId (List.filter (fun m => spec_evaluate tree (attributes m)) members).

(** Whether a tree is fully literal: no operand is a [DynamicRef]. *)
Fixpoint isLiteralTree (tree : QueryNode) : bool :=
  match tree with
  | Group _ children => forallb isLiteralTree children
  | Rule _ _ (Literal _) => true
  | Rule _ _ (DynamicRef _ _) => false
  end.

Inductive Resolution (A : Type) : Type :=
| Resolved (a : A) (warnings : list string)
| InvalidOperandReference (source : string).
Arguments Resolved {A} a warnings.
Arguments InvalidOperandReference {A} source.

Definition unboundOperandWarning (source field : string) : string :=
  "no value bound for " ++ source ++ "." ++ field.

(** Modelled from the spec: the operand resolver
    [resolve(tree, operands)], of which the source has no part.  One pass
    over the tree; a reference [DynamicRef source field] is replaced by the
    literal [operands[source][field]]; when the source is known but the
    field has no value the rule stays as it is (indeterminate) and a warning
    is recorded; a source that is not a key of the bindings at all fails
    with [InvalidOperandReference]. *)
Fixpoint resolve (tree : QueryNode) (operands : DynamicOperands)
    : Resolution QueryNode :=
  match tree with
  | Rule attributeId operator (Literal values) =>
      Resolved (Rule attributeId operator (Literal values)) []
  | Rule attributeId operator (DynamicRef source field) =>
      match operands !! source with
      | None => InvalidOperandReference source
      | Some fields =>
          match fields !! field with
          | Some values => Resolved (Rule attributeId operator (Literal values)) []
          | None =>
              Resolved (Rule attributeId operator (DynamicRef source field))
                       [unboundOperandWarning source field]
          end
      end
  | Group combinator children =>
      let fix resolveAll (nodes : list QueryNode) : Resolution (list QueryNode) :=
        match nodes with
        | [] => Resolved [] []
        | node :: rest =>
            match resolve node operands with
            | InvalidOperandReference source => InvalidOperandReference source
            | Resolved node' warnings =>
                match resolveAll rest with
                | InvalidOperandReference source => InvalidOperandReference source
                | Resolved rest' warnings' =>
                    Resolved (node' :: rest') (warnings ++ warnings')
                end
            end
        end in
      match resolveAll children with
      | InvalidOperandReference source => InvalidOperandReference source
      | Resolved children' warnings => Resolved (Group combinator children') warnings
      end
  end.

(** ** A concrete team

    The scenario of the specification: one attribute [Department], member 1
    in Sales, member 2 in Support, member 3 with nothing assigned. *)

Definition department : Attribute :=
  {| attr_id := "Department"; attr_name := "Department";
     attr_valueType := TOption;
     attr_allowedOptionIds := ["Sales"; "Support"] |}.

Definition memberA : TeamMember :=
  {| userId := 1; attributes := {[ "Department" := [VText "Sales"] ]} |}.
Definition memberB : TeamMember :=
  {| userId := 2; attributes := {[ "Department" := [VText "Support"] ]} |}.
Definition memberC : TeamMember :=
  {| userId := 3; attributes := ∅ |}.

Definition sampleMembers : list TeamMember := [memberA; memberB; memberC].

Definition sampleAssignment : AttributesAssignmentData :=
  {| fetched_attributesOfTheOrg := [department];
     attributesAssignedToTeamMembersWithOptions := sampleMembers |}.

(** A fetch that knows team 7 of organisation 1 and fails for any other. *)
Definition sampleFetch (teamId orgId : Z) : M AttributesAssignmentData :=
  if Z.eqb teamId 7 && Z.eqb orgId 1 then ret sampleAssignment
  else throw "team not found".

Definition sampleWorld : World :=
  {| warned := false; console := []; clock := [1000; 4500] |}.

(** The same world after the evaluator has warned once. *)
Definition warnedWorld : World :=
  {| warned := true; console := [evaluateDisabledMessage]; clock := [1000; 4500] |}.

(** [sampleWorld] after a call has taken its two clock readings. *)
Definition sampleWorldAfter : World :=
  {| warned := false; console := []; clock := [] |}.

(** A world whose performance clock is not available. *)
Definition clocklessWorld : World :=
  {| warned := false; console := []; clock := [] |}.

Definition inMarketing : QueryNode :=
  Rule "Department" EQUALS (Literal [VText "Marketing"]).
Definition inSales : QueryNode :=
  Rule "Department" EQUALS (Literal [VText "Sales"]).
Definition notInSales : QueryNode :=
  Rule "Department" NONE_IN (Literal [VText "Sales"]).
Definition regionOfForm : QueryNode :=
  Rule "Region" ANY_IN (DynamicRef "form" "region").

(** Bindings that know the source [form] but hold no value for [region]. *)
Definition sampleOperands : DynamicOperands :=
  {[ "form" := {[ "email" := [VText "a@b.c"] ]} ]}.

Definition sampleData (query fallback : option QueryNode) : FindData :=
  {| teamId := 7; orgId := 1;
     find_attributesQueryValue := query;
     fallbackAttributesQueryValue := fallback;
     find_dynamicFieldValueOperands := Some sampleOperands;
     isPreview := None |}.

Definition troubleshooterOn : option FindOptions :=
  Some {| enablePerf := None; concurrency := None;
          find_enableTroubleshooter := Some true |}.
Definition troubleshooterOff : option FindOptions :=
  Some {| enablePerf := None; concurrency := None;
          find_enableTroubleshooter := Some false |}.

Definition sampleInput (query : option QueryNode) (member : TeamMember)
    : EvaluateInput :=
  {| queryValue := query; queryBuilderConfig := JNull;
     data := attributes member; beStrictWithEmptyLogic := None |}.

(** The flag [findTeamMembersMatchingAttributeLogic] reads from its options:
    [options = {}] and [{ enableTroubleshooter = false } = options]. *)
Definition enableTroubleshooterOf (options : option FindOptions) : bool :=
  default false
    (find_enableTroubleshooter
       (default {| enablePerf := None; concurrency := None;
                   find_enableTroubleshooter := None |} options)).

(** The object the orchestrator builds from the query, the flag, what the
    fetch delivered and the measured duration. *)
Definition builtResult (query : option QueryNode) (enable : bool)
    (fetched : AttributesAssignmentData) (duration : Z) : FindResult :=
  {| teamMembersMatchingAttributeLogic := None;
     checkedFallback := false;
     mainAttributeLogicBuildingWarnings :=
       match query with Some _ => [logicDisabledWarning] | None => [] end;
     fallbackAttributeLogicBuildingWarnings := [];
     timeTaken := [("ttGetAttributesForLogic", Some duration)];
     type_ := if enable then Some NO_LOGIC_FOUND else None;
     data_ :=
       if enable
       then Some {| reason := "Attribute routing logic disabled on server.";
                    ts_attributesOfTheOrg := fetched_attributesOfTheOrg fetched;
                    ts_teamMembersWithAttributeOptionValuePerAttribute :=
                      attributesAssignedToTeamMembersWithOptions fetched |}
       else None |}.

(** [outcome_map f] applies [f] to the value a computation returned and
    keeps the final world and a thrown error as they are. *)
Definition outcome_map {A B} (f : A -> B) (o : Outcome A) : Outcome B :=
  match o with
  | Returned a w => Returned (f a) w
  | Thrown e w => Thrown e w
  end.

(** The value bound to [operands[source][field]], if any. *)
Definition lookupOperand (operands : option DynamicOperands)
    (source field : string) : option (list Value) :=
  match operands with
  | None => None
  | Some bindings =>
      match bindings !! source with
      | None => None
      | Some fields => fields !! field
      end
  end.

(** The same call data with another fallback query, and with other
    dynamic operands. *)
Definition withFallback (fallback : option QueryNode) (d : FindData) : FindData :=
  {| teamId := teamId d; orgId := orgId d;
     find_attributesQueryValue := find_attributesQueryValue d;
     fallbackAttributesQueryValue := fallback;
     find_dynamicFieldValueOperands := find_dynamicFieldValueOperands d;
     isPreview := isPreview d |}.

Definition withOperands (operands : option DynamicOperands) (d : FindData)
    : FindData :=
  {| teamId := teamId d; orgId := orgId d;
     find_attributesQueryValue := find_attributesQueryValue d;
     fallbackAttributesQueryValue := fallbackAttributesQueryValue d;
     find_dynamicFieldValueOperands := operands;
     isPreview := isPreview d |}.

(** The environment of a call delivers: the clock gives a first reading,
    the fetch then returns [fetched], the clock gives a second reading;
    [duration] is the difference of the readings and [w'] the world left. *)
Definition delivers (fetch : Z -> Z -> M AttributesAssignmentData)
    (d : FindData) (w : World) (fetched : AttributesAssignmentData)
    (duration : Z) (w' : World) : Prop :=
  exists t0 w1 w2 t1,
    performanceNow w = Returned t0 w1
    /\ fetch (teamId d) (orgId d) w1 = Returned fetched w2
    /\ performanceNow w2 = Returned t1 w'
    /\ duration = t1 - t0.

(** [Boolean(attributesQueryValue)] for the query of a call. *)
Definition hasQuery (d : FindData) : bool :=
  match find_attributesQueryValue d with Some _ => true | None => false end.

(** A fetch that leaves the world as it found it, whether it returns or
    throws: it reads no clock and prints nothing. *)
Definition worldPreserving (fetch : Z -> Z -> M AttributesAssignmentData)
    : Prop :=
  forall teamId orgId w,
    match fetch teamId orgId w with
    | Returned _ w' => w' = w
    | Thrown _ w' => w' = w
    end.

(** A call for a team the sample fetch does not know. *)
Definition unknownTeamData : FindData :=
  {| teamId := 8; orgId := 1;
     find_attributesQueryValue := Some inSales;
     fallbackAttributesQueryValue := None;
     find_dynamicFieldValueOperands := None;
     isPreview := None |}.

(** ** The availability route: working hours as clock times

    [minutesToTime] of [app/api/platform/providers/[id]/availability]: the
    working hours arrive as minutes since midnight and leave as "HH:MM".
    Minutes are integers here, as the availability service counts them;
    on integers [Math.floor(minutes / 60)] is the floored quotient, [%] the
    remainder with the sign of the dividend, and [toString] the decimal
    numeral with a leading minus sign for a negative number. *)

(** [n.toString()] on an integer. *)
Definition intToString (n : Z) : string :=
  NilZero.string_of_int (Z.to_int n).

(** [s.padStart(targetLength, padString)]: [s] itself when it is long
    enough or the pad is empty, else [s] after as much of the repeated pad
    as fills the length. *)
Definition padStart (targetLength : nat) (padString : string) (s : string)
    : string :=
  let stringLength := String.length s in
  if (targetLength <=? stringLength)%nat then s
  else if String.eqb padString "" then s
  else
    let fillLen := (targetLength - stringLength)%nat in
    substring 0 fillLen (String.concat "" (repeat padString fillLen)) ++ s.

(** [minutesToTime(minutes)]. *)
Definition minutesToTime (minutes : Z) : string :=
  let hours := minutes / 60 in
  let mins := Z.rem minutes 60 in
  padStart 2 "0" (intToString hours) ++ ":" ++ padStart 2 "0" (intToString mins).

(** The character of a decimal digit. *)
Definition digitChar (d : Z) : ascii := ascii_of_nat (48 + Z.to_nat d).

(** The number a string of decimal digits writes, if it is one. *)
Definition readDecimal (s : string) : option Z :=
  Z.of_int <$> NilZero.int_of_string s.

(** * Properties *)

(** ** The evaluator *)

Lemma warnOnce_returns message w :
  exists w', warnOnce message w = Returned tt w' /\ clock w' = clock w.
Proof.
  unfold warnOnce. destruct (warned w); eexists; split; reflexivity.
Qed.

Lemma evaluateRaqbLogic_returns input config w :
  exists w',
    evaluateRaqbLogic input config w = Returned LOGIC_NOT_FOUND_SO_MATCHED w'
    /\ clock w' = clock w.
Proof.
  unfold evaluateRaqbLogic, bind.
  destruct (warnOnce_returns evaluateDisabledMessage w) as (w' & -> & Hclock).
  exists w'. split; [reflexivity | exact Hclock].
Qed.

(** C5. Whatever the query tree, the member data, the query-builder
    configuration, the strictness flag and the log configuration, and
    whether or not the warning was already printed, [evaluateRaqbLogic]
    returns [LOGIC_NOT_FOUND_SO_MATCHED]. *)
Theorem evaluateRaqbLogic_constant :
  forall (input : EvaluateInput) (config : option EvaluateConfig) (w : World),
    returned (evaluateRaqbLogic input config w) = Some LOGIC_NOT_FOUND_SO_MATCHED.
Proof.
  intros input config w.
  destruct (evaluateRaqbLogic_returns input config w) as (w' & -> & _).
  reflexivity.
Qed.

(** C2, as the claim states it, fails for the OR group: on an empty
    OR-group the evaluator answers [LOGIC_NOT_FOUND_SO_MATCHED], which is
    not [NO_MATCH] and counts the member in. *)
Lemma empty_or_group_not_false :
  let result :=
    returned (evaluateRaqbLogic (sampleInput (Some (Group OR [])) memberA) None
                sampleWorld) in
  result = Some LOGIC_NOT_FOUND_SO_MATCHED
  /\ result <> Some NO_MATCH
  /\ isMatched <$> result <> Some false.
Proof.
  cbv zeta. split; [reflexivity | split; discriminate].
Qed.

(** C2, amended. For every member's attribute values, evaluating a group
    with zero children returns [LOGIC_NOT_FOUND_SO_MATCHED], which counts as
    matched, for the combinator AND and for the combinator OR alike. *)
Theorem empty_group_matched :
  forall (combinator : Combinator) (memberValues : gmap string (list Value))
         (builderConfig : Json) (strict : option bool)
         (config : option EvaluateConfig) (w : World),
    let result :=
      returned (evaluateRaqbLogic
                  {| queryValue := Some (Group combinator []);
                     queryBuilderConfig := builderConfig;
                     data := memberValues;
                     beStrictWithEmptyLogic := strict |} config w) in
    result = Some LOGIC_NOT_FOUND_SO_MATCHED
    /\ isMatched <$> result = Some true.
Proof.
  intros combinator memberValues builderConfig strict config w result.
  subst result.
  destruct (evaluateRaqbLogic_returns
              {| queryValue := Some (Group combinator []);
                 queryBuilderConfig := builderConfig;
                 data := memberValues;
                 beStrictWithEmptyLogic := strict |} config w) as (w' & -> & _).
  split; reflexivity.
Qed.

Lemma matchedMemberIds_returns query config strict members :
  forall w, exists w',
    matchedMemberIds query config strict members w
      = Returned (map userId members) w'.
Proof.
  induction members as [| member rest IH]; intros w; simpl.
  - exists w. reflexivity.
  - unfold bind at 1.
    destruct (evaluateRaqbLogic_returns
                {| queryValue := query; queryBuilderConfig := config;
                   data := attributes member;
                   beStrictWithEmptyLogic := strict |} None w) as (w1 & -> & _).
    unfold bind at 1.
    destruct (IH w1) as (w2 & ->).
    exists w2. reflexivity.
Qed.

(** C8. For every query and every member snapshot, the evaluator's answer
    for a member does not depend on the world it runs in (a first or a
    repeated evaluation), and going through the members in any order, from
    any world, yields the same matched member set. *)
Theorem evaluation_deterministic :
  forall (query : option QueryNode) (config : Json) (strict : option bool)
         (members1 members2 : list TeamMember) (w1 w2 : World),
    Permutation members1 members2 ->
    (forall (input : EvaluateInput) (logConfig : option EvaluateConfig),
        returned (evaluateRaqbLogic input logConfig w1)
        = returned (evaluateRaqbLogic input logConfig w2))
    /\ exists ids1 ids2,
         returned (matchedMemberIds query config strict members1 w1) = Some ids1
         /\ returned (matchedMemberIds query config strict members2 w2) = Some ids2
         /\ Permutation ids1 ids2
         /\ (forall id, In id ids1 <-> In id ids2).
Proof.
  intros query config strict members1 members2 w1 w2 Hperm.
  split.
  - intros input logConfig.
    destruct (evaluateRaqbLogic_returns input logConfig w1) as (w1' & -> & _).
    destruct (evaluateRaqbLogic_returns input logConfig w2) as (w2' & -> & _).
    reflexivity.
  - destruct (matchedMemberIds_returns query config strict members1 w1)
      as (w1' & ->).
    destruct (matchedMemberIds_returns query config strict members2 w2)
      as (w2' & ->).
    exists (map userId members1), (map userId members2).
    assert (Hids : Permutation (map userId members1) (map userId members2))
      by (apply Permutation_map; exact Hperm).
    repeat split; try reflexivity; try exact Hids.
    + apply Permutation_in. exact Hids.
    + apply Permutation_in. symmetry. exact Hids.
Qed.

Lemma evaluation_deterministic_witness :
  Permutation [memberA; memberB; memberC] [memberC; memberA; memberB]
  /\ returned (matchedMemberIds (Some inSales) JNull None
                 [memberA; memberB; memberC] sampleWorld) = Some [1; 2; 3]
  /\ returned (matchedMemberIds (Some inSales) JNull None
                 [memberC; memberA; memberB] warnedWorld) = Some [3; 1; 2]
  /\ exists ids1 ids2,
       returned (matchedMemberIds (Some inSales) JNull None
                   [memberA; memberB; memberC] sampleWorld) = Some ids1
       /\ returned (matchedMemberIds (Some inSales) JNull None
                      [memberC; memberA; memberB] warnedWorld) = Some ids2
       /\ Permutation ids1 ids2
       /\ (forall id, In id ids1 <-> In id ids2).
Proof.
  assert (Hperm : Permutation [memberA; memberB; memberC]
                              [memberC; memberA; memberB]).
  { apply Permutation_sym.
    change [memberC; memberA; memberB] with ([memberC] ++ [memberA; memberB])%list.
    change [memberA; memberB; memberC] with ([memberA; memberB] ++ [memberC])%list.
    apply Permutation_app_comm. }
  split; [exact Hperm |].
  split; [reflexivity |].
  split; [reflexivity |].
  exact (proj2 (evaluation_deterministic (Some inSales) JNull None
                  [memberA; memberB; memberC] [memberC; memberA; memberB]
                  sampleWorld warnedWorld Hperm)).
Defined.

(** ** The operand resolver *)

(** Induction on query trees with the hypothesis for every child of a
    group. *)
Lemma QueryNode_children_ind (P : QueryNode -> Prop) :
  (forall combinator children,
      Forall P children -> P (Group combinator children)) ->
  (forall attributeId operator operand, P (Rule attributeId operator operand)) ->
  forall tree, P tree.
Proof.
  intros HGroup HRule.
  fix IH 1.
  intros [combinator children | attributeId operator operand].
  - apply HGroup.
    revert children. fix IHchildren 1.
    intros [| child rest].
    + constructor.
    + constructor; [apply IH | apply IHchildren].
  - apply HRule.
Qed.

(** C10. Resolving a tree that holds no [DynamicRef] succeeds, records no
    warning and returns the tree unchanged, whatever the bindings. *)
Theorem resolve_literal_identity :
  forall (tree : QueryNode) (operands : DynamicOperands),
    isLiteralTree tree = true ->
    resolve tree operands = Resolved tree [].
Proof.
  intros tree operands. induction tree
    as [combinator children IH | attributeId operator operand]
    using QueryNode_children_ind; intros Hliteral.
  - simpl in Hliteral. simpl.
    induction children as [| child rest IHrest]; [reflexivity |].
    simpl in Hliteral. apply andb_prop in Hliteral as [Hchild Hrest].
    inversion IH as [| ? ? IHchild IHtail]; subst.
    rewrite (IHchild Hchild).
    specialize (IHrest IHtail Hrest).
    destruct ((fix resolveAll (nodes : list QueryNode)
                 : Resolution (list QueryNode) := _) rest)
      as [rest' warnings | source]; [| discriminate].
    injection IHrest as Hr Hw.
    inversion Hr; subst. reflexivity.
  - destruct operand as [values | source field]; [reflexivity | discriminate].
Qed.

Lemma resolve_literal_identity_witness :
  isLiteralTree (Group AND [inSales; Group OR [notInSales; inMarketing]]) = true
  /\ resolve (Group AND [inSales; Group OR [notInSales; inMarketing]])
             sampleOperands
     = Resolved (Group AND [inSales; Group OR [notInSales; inMarketing]]) [].
Proof.
  split; [reflexivity |].
  apply (resolve_literal_identity
           (Group AND [inSales; Group OR [notInSales; inMarketing]])
           sampleOperands).
  reflexivity.
Defined.

(** ** The timing helper *)

Lemma asyncPerf_returns {A} (fn : M A) w t0 w1 r w2 t1 w3 :
  performanceNow w = Returned t0 w1 ->
  fn w1 = Returned r w2 ->
  performanceNow w2 = Returned t1 w3 ->
  asyncPerf fn w = Returned (r, Some (t1 - t0)) w3.
Proof.
  intros Hstart Hfn Hend. unfold asyncPerf, bind, ret.
  rewrite Hstart, Hfn, Hend. reflexivity.
Qed.

Lemma asyncPerf_duration {A} (fn : M A) w r duration w' :
  asyncPerf fn w = Returned (r, duration) w' -> exists d, duration = Some d.
Proof.
  unfold asyncPerf, bind, ret.
  destruct (performanceNow w) as [t0 w1 |]; [| discriminate].
  destruct (fn w1) as [r' w2 |]; [| discriminate].
  destruct (performanceNow w2) as [t1 w3 |]; [| discriminate].
  intros H. injection H as _ <- _. eexists. reflexivity.
Qed.

Lemma asyncPerf_clock_gone {A} (fn : M A) w :
  clock w = [] ->
  asyncPerf fn w = Thrown "performance.now is not available" w.
Proof.
  intros Hclock. unfold asyncPerf, bind, performanceNow.
  rewrite Hclock. reflexivity.
Qed.

(** ** The orchestrator *)

Section OrchestratorProperties.

Variable fetch : Z -> Z -> M AttributesAssignmentData.

Lemma find_returns data options w fetched duration w' :
  delivers fetch data w fetched duration w' ->
  findTeamMembersMatchingAttributeLogic fetch data options w
  = Returned (builtResult (find_attributesQueryValue data)
                (enableTroubleshooterOf options) fetched duration) w'.
Proof.
  intros (t0 & w1 & w2 & t1 & Hstart & Hfetch & Hend & ->).
  unfold findTeamMembersMatchingAttributeLogic, getAttributesForLogic.
  unfold bind at 1. unfold bind at 1.
  rewrite (asyncPerf_returns _ _ _ _ _ _ _ _ Hstart Hfetch Hend).
  unfold ret at 1. cbn.
  unfold builtResult, enableTroubleshooterOf.
  destruct options as [[perf conc [[|] |]] |],
           (find_attributesQueryValue data); reflexivity.
Qed.

Lemma find_inv data options w res w' :
  findTeamMembersMatchingAttributeLogic fetch data options w = Returned res w' ->
  exists fetched duration,
    delivers fetch data w fetched duration w'
    /\ res = builtResult (find_attributesQueryValue data)
               (enableTroubleshooterOf options) fetched duration.
Proof.
  intros Hfind.
  destruct (performanceNow w) as [t0 w1 | e w1] eqn:Hstart.
  - destruct (fetch (teamId data) (orgId data) w1) as [fetched w2 | e w2]
      eqn:Hfetch.
    + destruct (performanceNow w2) as [t1 w3 | e w3] eqn:Hend.
      * assert (Hd : delivers fetch data w fetched (t1 - t0) w3)
          by (exists t0, w1, w2, t1; repeat split; assumption).
        rewrite (find_returns data options w _ _ _ Hd) in Hfind.
        injection Hfind as <- <-.
        exists fetched, (t1 - t0). split; [exact Hd | reflexivity].
      * exfalso. revert Hfind.
        unfold findTeamMembersMatchingAttributeLogic, getAttributesForLogic,
          asyncPerf, bind.
        rewrite Hstart, Hfetch, Hend. discriminate.
    + exfalso. revert Hfind.
      unfold findTeamMembersMatchingAttributeLogic, getAttributesForLogic,
        asyncPerf, bind.
      rewrite Hstart, Hfetch. discriminate.
  - exfalso. revert Hfind.
    unfold findTeamMembersMatchingAttributeLogic, getAttributesForLogic,
      asyncPerf, bind.
    rewrite Hstart. discriminate.
Qed.

(** The outcome of a call, up to the troubleshooter fields and the
    durations, is the same under any two option arguments. *)
Lemma find_meaning_options data options1 options2 w :
  outcome_map meaning (findTeamMembersMatchingAttributeLogic fetch data options1 w)
  = outcome_map meaning (findTeamMembersMatchingAttributeLogic fetch data options2 w).
Proof.
  unfold findTeamMembersMatchingAttributeLogic, getAttributesForLogic,
    asyncPerf, bind, ret.
  destruct (performanceNow w) as [t0 w1 | e w1]; [| reflexivity].
  destruct (fetch (teamId data) (orgId data) w1) as [fetched w2 | e w2];
    [| reflexivity].
  destruct (performanceNow w2) as [t1 w3 | e w3]; [| reflexivity].
  reflexivity.
Qed.

(** C1, amended. When [attributesQueryValue] is null and the environment
    delivers, the call returns; the returned
    [teamMembersMatchingAttributeLogic] is null, [checkedFallback] is false,
    both warning lists are empty, and with the troubleshooter enabled the
    case is [NO_LOGIC_FOUND] and its data carry all the members fetched for
    the team. *)
Theorem no_logic_outcome :
  forall (data : FindData) (options : option FindOptions) (w w' : World)
         (fetched : AttributesAssignmentData) (duration : Z),
    find_attributesQueryValue data = None ->
    delivers fetch data w fetched duration w' ->
    exists res,
      findTeamMembersMatchingAttributeLogic fetch data options w = Returned res w'
      /\ teamMembersMatchingAttributeLogic res = None
      /\ checkedFallback res = false
      /\ mainAttributeLogicBuildingWarnings res = []
      /\ fallbackAttributeLogicBuildingWarnings res = []
      /\ (enableTroubleshooterOf options = true ->
          type_ res = Some NO_LOGIC_FOUND
          /\ ts_teamMembersWithAttributeOptionValuePerAttribute <$> data_ res
             = Some (attributesAssignedToTeamMembersWithOptions fetched)).
Proof.
  intros data options w w' fetched duration Hnull Hdelivers.
  eexists. split; [apply find_returns; exact Hdelivers |].
  rewrite Hnull. cbn.
  repeat (split; [reflexivity |]).
  intros ->. split; reflexivity.
Qed.

(** C3, amended. When the primary tree matches none of the fetched members
    and a fallback tree is given that matches a non-empty set M of them, and
    the environment delivers, the call returns with
    [teamMembersMatchingAttributeLogic] null (not M) and [checkedFallback]
    false; with the troubleshooter enabled the case is [NO_LOGIC_FOUND]; the
    fallback tree is not looked at: any other fallback gives the same
    outcome. *)
Theorem fallback_not_consulted :
  forall (data : FindData) (options : option FindOptions) (w w' : World)
         (fetched : AttributesAssignmentData) (duration : Z)
         (primary fallback : QueryNode) (M : list Z),
    find_attributesQueryValue data = Some primary ->
    fallbackAttributesQueryValue data = Some fallback ->
    delivers fetch data w fetched duration w' ->
    spec_matched primary (attributesAssignedToTeamMembersWithOptions fetched) = [] ->
    spec_matched fallback (attributesAssignedToTeamMembersWithOptions fetched) = M ->
    M <> [] ->
    exists res,
      findTeamMembersMatchingAttributeLogic fetch data options w = Returned res w'
      /\ teamMembersMatchingAttributeLogic res = None
      /\ teamMembersMatchingAttributeLogic res <> Some M
      /\ checkedFallback res = false
      /\ (enableTroubleshooterOf options = true -> type_ res = Some NO_LOGIC_FOUND)
      /\ (forall other,
             findTeamMembersMatchingAttributeLogic fetch
               (withFallback other data) options w = Returned res w').
Proof.
  intros data options w w' fetched duration primary fallback M
         Hprimary Hfallback Hdelivers _ _ _.
  eexists. split; [apply find_returns; exact Hdelivers |].
  cbn. split; [reflexivity |]. split; [discriminate |].
  split; [reflexivity |]. split.
  - intros ->. reflexivity.
  - intros other. apply (find_returns (withFallback other data)).
    exact Hdelivers.
Qed.

(** C4, amended. When the primary tree, and the fallback tree when there is
    one, match none of the fetched members, and the environment delivers,
    the call returns with [teamMembersMatchingAttributeLogic] null: no list
    is returned, neither the empty one nor the list of all members;
    [checkedFallback] is false. *)
Theorem no_match_outcome :
  forall (data : FindData) (options : option FindOptions) (w w' : World)
         (fetched : AttributesAssignmentData) (duration : Z)
         (primary : QueryNode),
    find_attributesQueryValue data = Some primary ->
    delivers fetch data w fetched duration w' ->
    spec_matched primary (attributesAssignedToTeamMembersWithOptions fetched) = [] ->
    (forall fallback,
        fallbackAttributesQueryValue data = Some fallback ->
        spec_matched fallback (attributesAssignedToTeamMembersWithOptions fetched)
        = []) ->
    exists res,
      findTeamMembersMatchingAttributeLogic fetch data options w = Returned res w'
      /\ teamMembersMatchingAttributeLogic res = None
      /\ teamMembersMatchingAttributeLogic res <> Some []
      /\ teamMembersMatchingAttributeLogic res
         <> Some (map userId (attributesAssignedToTeamMembersWithOptions fetched))
      /\ checkedFallback res = false.
Proof.
  intros data options w w' fetched duration primary Hprimary Hdelivers _ _.
  eexists. split; [apply find_returns; exact Hdelivers |].
  cbn. split; [reflexivity |]. split; [discriminate |].
  split; [discriminate | reflexivity].
Qed.

(** C6. Two runs of a call from the same world under any two option
    arguments, so in particular two that differ in [enableTroubleshooter]
    only, end alike: both throw the same error or both return, with the same
    [teamMembersMatchingAttributeLogic], [checkedFallback] and warnings.
    With [enableTroubleshooter] false or absent, the returned object has
    neither a [troubleshooter] key nor the [type] and [data] keys of a
    troubleshooter record. *)
Theorem troubleshooter_flag_no_influence :
  forall (data : FindData) (options1 options2 : option FindOptions) (w : World),
    outcome_map meaning
      (findTeamMembersMatchingAttributeLogic fetch data options1 w)
    = outcome_map meaning
        (findTeamMembersMatchingAttributeLogic fetch data options2 w)
    /\ (forall res w',
           enableTroubleshooterOf options1 = false ->
           findTeamMembersMatchingAttributeLogic fetch data options1 w
           = Returned res w' ->
           type_ res = None /\ data_ res = None
           /\ ~ In "troubleshooter" (resultKeys res)
           /\ ~ In "type" (resultKeys res) /\ ~ In "data" (resultKeys res)).
Proof.
  intros data options1 options2 w. split.
  - apply find_meaning_options.
  - intros res w' Hoff Hfind.
    destruct (find_inv data options1 w res w' Hfind)
      as (fetched & duration & _ & ->).
    rewrite Hoff. cbn.
    split; [reflexivity |]. split; [reflexivity |].
    repeat split; intros Hin;
      repeat (destruct Hin as [Hin | Hin]; [discriminate Hin |]);
      exact Hin.
Qed.

(** C7, amended. For every rule whose operand is a [DynamicRef] with no
    value bound in the supplied operands: the evaluator answers
    [LOGIC_NOT_FOUND_SO_MATCHED] for the rule, which counts as matched; a
    call with the rule as its query, when the environment delivers, returns
    an outcome whose main warnings are the one message that evaluation is
    disabled and whose matched list is null; and the operands are not looked
    at: any other bindings give the same outcome. *)
Theorem unbound_operand_outcome :
  forall (data : FindData) (options : option FindOptions) (w w' : World)
         (fetched : AttributesAssignmentData) (duration : Z)
         (attributeId : string) (operator : Operator) (source field : string)
         (memberValues : gmap string (list Value)) (builderConfig : Json)
         (strict : option bool) (logConfig : option EvaluateConfig)
         (w0 : World),
    find_attributesQueryValue data
    = Some (Rule attributeId operator (DynamicRef source field)) ->
    lookupOperand (find_dynamicFieldValueOperands data) source field = None ->
    delivers fetch data w fetched duration w' ->
    (let result :=
       returned (evaluateRaqbLogic
                   {| queryValue :=
                        Some (Rule attributeId operator (DynamicRef source field));
                      queryBuilderConfig := builderConfig;
                      data := memberValues;
                      beStrictWithEmptyLogic := strict |} logConfig w0) in
     result = Some LOGIC_NOT_FOUND_SO_MATCHED
     /\ isMatched <$> result = Some true)
    /\ exists res,
         findTeamMembersMatchingAttributeLogic fetch data options w
         = Returned res w'
         /\ mainAttributeLogicBuildingWarnings res = [logicDisabledWarning]
         /\ fallbackAttributeLogicBuildingWarnings res = []
         /\ teamMembersMatchingAttributeLogic res = None
         /\ (forall operands,
                findTeamMembersMatchingAttributeLogic fetch
                  (withOperands operands data) options w = Returned res w').
Proof.
  intros data options w w' fetched duration attributeId operator source field
         memberValues builderConfig strict logConfig w0 Hquery _ Hdelivers.
  split.
  - cbv zeta.
    destruct (evaluateRaqbLogic_returns
                {| queryValue :=
                     Some (Rule attributeId operator (DynamicRef source field));
                   queryBuilderConfig := builderConfig;
                   data := memberValues;
                   beStrictWithEmptyLogic := strict |} logConfig w0)
      as (w0' & -> & _).
    split; reflexivity.
  - eexists. split; [apply find_returns; exact Hdelivers |].
    rewrite Hquery. cbn.
    repeat (split; [reflexivity |]).
    intros operands.
    rewrite (find_returns (withOperands operands data) options w
               fetched duration w' Hdelivers).
    cbn. rewrite Hquery. reflexivity.
Qed.

(** C9, amended. When the clock delivers its two readings, [asyncPerf fn]
    returns the result of [fn] unchanged, with the difference of the
    readings as duration, and the matched members, [checkedFallback] and
    warnings of a call are those of the orchestration without timing.  The
    duration [asyncPerf] reports is never null: when the clock is not
    available the failure is not caught and [asyncPerf] throws. *)
Theorem timing_preserves_outcome :
  forall (A : Type) (fn : M A) (r : A) (w w1 w2 w3 w' : World) (t0 t1 : Z)
         (data : FindData) (options : option FindOptions)
         (fetched : AttributesAssignmentData) (duration : Z),
    performanceNow w = Returned t0 w1 ->
    fn w1 = Returned r w2 ->
    performanceNow w2 = Returned t1 w3 ->
    delivers fetch data w fetched duration w' ->
    asyncPerf fn w = Returned (r, Some (t1 - t0)) w3
    /\ (forall w0 x w0', asyncPerf fn w0 <> Returned (x, None) w0')
    /\ (forall w0, clock w0 = [] ->
                   asyncPerf fn w0 = Thrown "performance.now is not available" w0)
    /\ exists timed untimed,
         returned (findTeamMembersMatchingAttributeLogic fetch data options w)
         = Some timed
         /\ returned (findTeamMembersMatchingAttributeLogic_untimed fetch
                        data options w1) = Some untimed
         /\ meaning timed = meaning untimed.
Proof.
  intros A fn r w w1 w2 w3 w' t0 t1 data options fetched duration
         Hstart Hfn Hend Hdelivers.
  split; [exact (asyncPerf_returns fn w t0 w1 r w2 t1 w3 Hstart Hfn Hend) |].
  split.
  { intros w0 x w0' Hnull.
    destruct (asyncPerf_duration fn w0 x None w0' Hnull) as (d & Hd).
    discriminate Hd. }
  split; [intros w0; apply asyncPerf_clock_gone |].
  rewrite (find_returns data options w fetched duration w' Hdelivers).
  destruct Hdelivers as (t0' & w1' & w2' & t1' & Hstart' & Hfetch & _ & _).
  rewrite Hstart in Hstart'. injection Hstart' as <- <-.
  unfold findTeamMembersMatchingAttributeLogic_untimed,
    getAttributesForLogic_untimed.
  unfold bind at 1. unfold bind at 1. rewrite Hfetch.
  do 2 eexists. split; [reflexivity |]. split; [reflexivity |].
  unfold meaning, builtResult. cbn.
  destruct (find_attributesQueryValue data); reflexivity.
Qed.

End OrchestratorProperties.

(** ** The properties on the concrete team *)

(** The sample environment delivers: readings 1000 and 4500 around a fetch
    of team 7. *)
Ltac sample_delivers :=
  exists 1000, {| warned := false; console := []; clock := [4500] |},
         {| warned := false; console := []; clock := [4500] |}, 4500;
  repeat split; reflexivity.

(** C1, as the claim states it, fails: with no query, the call for the
    sample team returns null where the claim has the three members fetched,
    and no warning where the claim has "no attribute logic configured". *)
Lemma no_logic_returns_null :
  delivers sampleFetch (sampleData None None) sampleWorld sampleAssignment
           3500 sampleWorldAfter
  /\ exists res,
       findTeamMembersMatchingAttributeLogic sampleFetch (sampleData None None)
         troubleshooterOn sampleWorld = Returned res sampleWorldAfter
       /\ teamMembersMatchingAttributeLogic res = None
       /\ teamMembersMatchingAttributeLogic res
          <> Some (map userId (attributesAssignedToTeamMembersWithOptions
                                 sampleAssignment))
       /\ mainAttributeLogicBuildingWarnings res = []
       /\ ~ In "no attribute logic configured"
              (mainAttributeLogicBuildingWarnings res
               ++ fallbackAttributeLogicBuildingWarnings res).
Proof.
  split; [sample_delivers |].
  eexists. split; [vm_compute; reflexivity |].
  split; [reflexivity |]. split; [discriminate |].
  split; [reflexivity |]. intros [].
Qed.

Lemma no_logic_outcome_witness :
  find_attributesQueryValue (sampleData None None) = None
  /\ delivers sampleFetch (sampleData None None) sampleWorld sampleAssignment
              3500 sampleWorldAfter
  /\ exists res,
       findTeamMembersMatchingAttributeLogic sampleFetch (sampleData None None)
         troubleshooterOn sampleWorld = Returned res sampleWorldAfter
       /\ teamMembersMatchingAttributeLogic res = None
       /\ checkedFallback res = false
       /\ mainAttributeLogicBuildingWarnings res = []
       /\ fallbackAttributeLogicBuildingWarnings res = []
       /\ (enableTroubleshooterOf troubleshooterOn = true ->
           type_ res = Some NO_LOGIC_FOUND
           /\ ts_teamMembersWithAttributeOptionValuePerAttribute <$> data_ res
              = Some sampleMembers).
Proof.
  assert (Hd : delivers sampleFetch (sampleData None None) sampleWorld
                 sampleAssignment 3500 sampleWorldAfter) by sample_delivers.
  split; [reflexivity |]. split; [exact Hd |].
  exact (no_logic_outcome sampleFetch (sampleData None None) troubleshooterOn
           sampleWorld sampleWorldAfter sampleAssignment 3500 eq_refl Hd).
Defined.

(** C3, as the claim states it, fails: the primary rule "Department equals
    Marketing" matches no member of the sample team, the fallback rule
    "Department none in Sales" matches members 2 and 3, and the call returns
    null with [checkedFallback] false and the case [NO_LOGIC_FOUND]. *)
Lemma fallback_not_activated :
  spec_matched inMarketing sampleMembers = []
  /\ spec_matched notInSales sampleMembers = [2; 3]
  /\ exists res,
       findTeamMembersMatchingAttributeLogic sampleFetch
         (sampleData (Some inMarketing) (Some notInSales))
         troubleshooterOn sampleWorld = Returned res sampleWorldAfter
       /\ teamMembersMatchingAttributeLogic res <> Some [2; 3]
       /\ checkedFallback res <> true
       /\ type_ res <> Some MATCH_RESULTS_READY_WITH_FALLBACK.
Proof.
  split; [vm_compute; reflexivity |]. split; [vm_compute; reflexivity |].
  eexists. split; [vm_compute; reflexivity |].
  split; [discriminate |]. split; discriminate.
Qed.

Lemma fallback_not_consulted_witness :
  find_attributesQueryValue (sampleData (Some inMarketing) (Some notInSales))
  = Some inMarketing
  /\ fallbackAttributesQueryValue
       (sampleData (Some inMarketing) (Some notInSales)) = Some notInSales
  /\ delivers sampleFetch (sampleData (Some inMarketing) (Some notInSales))
              sampleWorld sampleAssignment 3500 sampleWorldAfter
  /\ spec_matched inMarketing
       (attributesAssignedToTeamMembersWithOptions sampleAssignment) = []
  /\ spec_matched notInSales
       (attributesAssignedToTeamMembersWithOptions sampleAssignment) = [2; 3]
  /\ [2; 3] <> ([] : list Z)
  /\ exists res,
       findTeamMembersMatchingAttributeLogic sampleFetch
         (sampleData (Some inMarketing) (Some notInSales))
         troubleshooterOn sampleWorld = Returned res sampleWorldAfter
       /\ teamMembersMatchingAttributeLogic res = None
       /\ teamMembersMatchingAttributeLogic res <> Some [2; 3]
       /\ checkedFallback res = false
       /\ (enableTroubleshooterOf troubleshooterOn = true ->
           type_ res = Some NO_LOGIC_FOUND)
       /\ (forall other,
              findTeamMembersMatchingAttributeLogic sampleFetch
                (withFallback other
                   (sampleData (Some inMarketing) (Some notInSales)))
                troubleshooterOn sampleWorld = Returned res sampleWorldAfter).
Proof.
  assert (Hd : delivers sampleFetch
                 (sampleData (Some inMarketing) (Some notInSales)) sampleWorld
                 sampleAssignment 3500 sampleWorldAfter) by sample_delivers.
  assert (Hprimary : spec_matched inMarketing
                       (attributesAssignedToTeamMembersWithOptions
                          sampleAssignment) = [])
    by (vm_compute; reflexivity).
  assert (Hfallback : spec_matched notInSales
                        (attributesAssignedToTeamMembersWithOptions
                           sampleAssignment) = [2; 3])
    by (vm_compute; reflexivity).
  assert (Hnonempty : [2; 3] <> ([] : list Z)) by discriminate.
  split; [reflexivity |]. split; [reflexivity |]. split; [exact Hd |].
  split; [exact Hprimary |]. split; [exact Hfallback |].
  split; [exact Hnonempty |].
  exact (fallback_not_consulted sampleFetch
           (sampleData (Some inMarketing) (Some notInSales)) troubleshooterOn
           sampleWorld sampleWorldAfter sampleAssignment 3500
           inMarketing notInSales [2; 3]
           eq_refl eq_refl Hd Hprimary Hfallback Hnonempty).
Defined.

(** C4, as the claim states it, fails: the rule "Department equals
    Marketing" matches no member of the sample team, with no fallback and
    with a fallback that matches none either, and the call returns null,
    which is not the empty list. *)
Lemma no_match_returns_null :
  spec_matched inMarketing sampleMembers = []
  /\ (exists res,
        findTeamMembersMatchingAttributeLogic sampleFetch
          (sampleData (Some inMarketing) None)
          troubleshooterOff sampleWorld = Returned res sampleWorldAfter
        /\ teamMembersMatchingAttributeLogic res = None
        /\ teamMembersMatchingAttributeLogic res <> Some [])
  /\ (exists res,
        findTeamMembersMatchingAttributeLogic sampleFetch
          (sampleData (Some inMarketing) (Some inMarketing))
          troubleshooterOff sampleWorld = Returned res sampleWorldAfter
        /\ teamMembersMatchingAttributeLogic res = None
        /\ teamMembersMatchingAttributeLogic res <> Some []).
Proof.
  split; [vm_compute; reflexivity |].
  split; eexists; (split; [vm_compute; reflexivity |]);
    (split; [reflexivity | discriminate]).
Qed.

Lemma no_match_outcome_witness :
  find_attributesQueryValue (sampleData (Some inMarketing) (Some inMarketing))
  = Some inMarketing
  /\ delivers sampleFetch (sampleData (Some inMarketing) (Some inMarketing))
              sampleWorld sampleAssignment 3500 sampleWorldAfter
  /\ spec_matched inMarketing
       (attributesAssignedToTeamMembersWithOptions sampleAssignment) = []
  /\ (forall fallback,
         fallbackAttributesQueryValue
           (sampleData (Some inMarketing) (Some inMarketing)) = Some fallback ->
         spec_matched fallback
           (attributesAssignedToTeamMembersWithOptions sampleAssignment) = [])
  /\ exists res,
       findTeamMembersMatchingAttributeLogic sampleFetch
         (sampleData (Some inMarketing) (Some inMarketing))
         troubleshooterOff sampleWorld = Returned res sampleWorldAfter
       /\ teamMembersMatchingAttributeLogic res = None
       /\ teamMembersMatchingAttributeLogic res <> Some []
       /\ teamMembersMatchingAttributeLogic res
          <> Some (map userId (attributesAssignedToTeamMembersWithOptions
                                 sampleAssignment))
       /\ checkedFallback res = false.
Proof.
  assert (Hd : delivers sampleFetch
                 (sampleData (Some inMarketing) (Some inMarketing)) sampleWorld
                 sampleAssignment 3500 sampleWorldAfter) by sample_delivers.
  assert (Hprimary : spec_matched inMarketing
                       (attributesAssignedToTeamMembersWithOptions
                          sampleAssignment) = [])
    by (vm_compute; reflexivity).
  assert (Hfallback : forall fallback,
             fallbackAttributesQueryValue
               (sampleData (Some inMarketing) (Some inMarketing))
             = Some fallback ->
             spec_matched fallback
               (attributesAssignedToTeamMembersWithOptions sampleAssignment)
             = []).
  { intros fallback Heq. injection Heq as <-. exact Hprimary. }
  split; [reflexivity |]. split; [exact Hd |]. split; [exact Hprimary |].
  split; [exact Hfallback |].
  exact (no_match_outcome sampleFetch
           (sampleData (Some inMarketing) (Some inMarketing)) troubleshooterOff
           sampleWorld sampleWorldAfter sampleAssignment 3500 inMarketing
           eq_refl Hd Hprimary Hfallback).
Defined.

Lemma troubleshooter_flag_no_influence_witness :
  enableTroubleshooterOf troubleshooterOff = false
  /\ findTeamMembersMatchingAttributeLogic sampleFetch
       (sampleData (Some inSales) None) troubleshooterOff sampleWorld
     = Returned (builtResult (Some inSales) false sampleAssignment 3500)
         sampleWorldAfter
  /\ outcome_map meaning
       (findTeamMembersMatchingAttributeLogic sampleFetch
          (sampleData (Some inSales) None) troubleshooterOff sampleWorld)
     = outcome_map meaning
         (findTeamMembersMatchingAttributeLogic sampleFetch
            (sampleData (Some inSales) None) troubleshooterOn sampleWorld)
  /\ type_ (builtResult (Some inSales) false sampleAssignment 3500) = None
  /\ data_ (builtResult (Some inSales) false sampleAssignment 3500) = None
  /\ ~ In "troubleshooter"
          (resultKeys (builtResult (Some inSales) false sampleAssignment 3500))
  /\ ~ In "type"
          (resultKeys (builtResult (Some inSales) false sampleAssignment 3500))
  /\ ~ In "data"
          (resultKeys (builtResult (Some inSales) false sampleAssignment 3500)).
Proof.
  assert (Hfind : findTeamMembersMatchingAttributeLogic sampleFetch
                    (sampleData (Some inSales) None) troubleshooterOff
                    sampleWorld
                  = Returned (builtResult (Some inSales) false sampleAssignment
                                3500) sampleWorldAfter)
    by (vm_compute; reflexivity).
  destruct (troubleshooter_flag_no_influence sampleFetch
              (sampleData (Some inSales) None) troubleshooterOff
              troubleshooterOn sampleWorld) as [Hsame Hoff].
  split; [reflexivity |]. split; [exact Hfind |]. split; [exact Hsame |].
  exact (Hoff _ _ eq_refl Hfind).
Defined.

(** C7, as the claim states it, fails: the bindings know the source [form]
    but hold nothing for [region], and the evaluator's answer for the rule
    on [form.region] is [LOGIC_NOT_FOUND_SO_MATCHED], which counts the
    member in. *)
Lemma unbound_operand_rule_matched :
  lookupOperand (Some sampleOperands) "form" "region" = None
  /\ (let result :=
        returned (evaluateRaqbLogic (sampleInput (Some regionOfForm) memberA)
                    None sampleWorld) in
      result = Some LOGIC_NOT_FOUND_SO_MATCHED
      /\ result <> Some NO_MATCH
      /\ isMatched <$> result <> Some false).
Proof.
  split; [vm_compute; reflexivity |].
  cbv zeta. split; [reflexivity | split; discriminate].
Qed.

Lemma unbound_operand_outcome_witness :
  find_attributesQueryValue (sampleData (Some regionOfForm) None)
  = Some (Rule "Region" ANY_IN (DynamicRef "form" "region"))
  /\ lookupOperand
       (find_dynamicFieldValueOperands (sampleData (Some regionOfForm) None))
       "form" "region" = None
  /\ delivers sampleFetch (sampleData (Some regionOfForm) None) sampleWorld
              sampleAssignment 3500 sampleWorldAfter
  /\ returned (evaluateRaqbLogic
                 {| queryValue :=
                      Some (Rule "Region" ANY_IN (DynamicRef "form" "region"));
                    queryBuilderConfig := JNull;
                    data := attributes memberA;
                    beStrictWithEmptyLogic := None |} None sampleWorld)
     = Some LOGIC_NOT_FOUND_SO_MATCHED
  /\ exists res,
       findTeamMembersMatchingAttributeLogic sampleFetch
         (sampleData (Some regionOfForm) None) troubleshooterOff sampleWorld
       = Returned res sampleWorldAfter
       /\ mainAttributeLogicBuildingWarnings res = [logicDisabledWarning]
       /\ fallbackAttributeLogicBuildingWarnings res = []
       /\ teamMembersMatchingAttributeLogic res = None
       /\ (forall operands,
              findTeamMembersMatchingAttributeLogic sampleFetch
                (withOperands operands (sampleData (Some regionOfForm) None))
                troubleshooterOff sampleWorld = Returned res sampleWorldAfter).
Proof.
  assert (Hd : delivers sampleFetch (sampleData (Some regionOfForm) None)
                 sampleWorld sampleAssignment 3500 sampleWorldAfter)
    by sample_delivers.
  assert (Hunbound : lookupOperand
                       (find_dynamicFieldValueOperands
                          (sampleData (Some regionOfForm) None))
                       "form" "region" = None)
    by (vm_compute; reflexivity).
  destruct (unbound_operand_outcome sampleFetch
              (sampleData (Some regionOfForm) None) troubleshooterOff
              sampleWorld sampleWorldAfter sampleAssignment 3500
              "Region" ANY_IN "form" "region" (attributes memberA) JNull None
              None sampleWorld eq_refl Hunbound Hd) as [[Hrule _] Hcall].
  split; [reflexivity |]. split; [exact Hunbound |]. split; [exact Hd |].
  split; [exact Hrule | exact Hcall].
Defined.

(** C9, as the claim states it, fails: with the clock not available,
    [asyncPerf] does not return a null duration but throws, and so does the
    call. *)
Lemma timing_failure_aborts :
  asyncPerf (ret 7) clocklessWorld
  = Thrown "performance.now is not available" clocklessWorld
  /\ (forall w', asyncPerf (ret 7) clocklessWorld <> Returned (7, None) w')
  /\ findTeamMembersMatchingAttributeLogic sampleFetch
       (sampleData (Some inSales) None) None clocklessWorld
     = Thrown "performance.now is not available" clocklessWorld
  /\ (exists res w',
        findTeamMembersMatchingAttributeLogic_untimed sampleFetch
          (sampleData (Some inSales) None) None clocklessWorld
        = Returned res w').
Proof.
  split; [reflexivity |]. split; [intros w'; discriminate |].
  split; [reflexivity |].
  do 2 eexists. vm_compute. reflexivity.
Qed.

Lemma timing_preserves_outcome_witness :
  performanceNow sampleWorld
  = Returned 1000 {| warned := false; console := []; clock := [4500] |}
  /\ ret 7 {| warned := false; console := []; clock := [4500] |}
     = Returned 7 {| warned := false; console := []; clock := [4500] |}
  /\ performanceNow {| warned := false; console := []; clock := [4500] |}
     = Returned 4500 sampleWorldAfter
  /\ delivers sampleFetch (sampleData (Some inSales) None) sampleWorld
              sampleAssignment 3500 sampleWorldAfter
  /\ asyncPerf (ret 7) sampleWorld = Returned (7, Some (4500 - 1000)) sampleWorldAfter
  /\ exists timed untimed,
       returned (findTeamMembersMatchingAttributeLogic sampleFetch
                   (sampleData (Some inSales) None) None sampleWorld)
       = Some timed
       /\ returned (findTeamMembersMatchingAttributeLogic_untimed sampleFetch
                      (sampleData (Some inSales) None) None
                      {| warned := false; console := []; clock := [4500] |})
          = Some untimed
       /\ meaning timed = meaning untimed.
Proof.
  assert (Hd : delivers sampleFetch (sampleData (Some inSales) None)
                 sampleWorld sampleAssignment 3500 sampleWorldAfter)
    by sample_delivers.
  destruct (timing_preserves_outcome sampleFetch Z (ret 7) 7 sampleWorld
              {| warned := false; console := []; clock := [4500] |}
              {| warned := false; console := []; clock := [4500] |}
              sampleWorldAfter sampleWorldAfter 1000 4500
              (sampleData (Some inSales) None) None sampleAssignment 3500
              eq_refl eq_refl eq_refl Hd) as (Hperf & _ & _ & Hsame).
  split; [reflexivity |]. split; [reflexivity |]. split; [reflexivity |].
  split; [exact Hd |]. split; [exact Hperf | exact Hsame].
Defined.

(** * Further properties of the code *)

(** ** The warn-once flag *)

(** X1. The evaluator warns once: a first call from a world that has not
    warned prints the one message and sets the flag, a call from a world
    that has warned prints nothing, and in both cases any later call leaves
    the world exactly as it is; no call reads the clock. *)
Theorem evaluateRaqbLogic_warns_once :
  forall (input1 input2 : EvaluateInput)
         (config1 config2 : option EvaluateConfig) (w : World),
    exists w1,
      evaluateRaqbLogic input1 config1 w
      = Returned LOGIC_NOT_FOUND_SO_MATCHED w1
      /\ evaluateRaqbLogic input2 config2 w1
         = Returned LOGIC_NOT_FOUND_SO_MATCHED w1
      /\ warned w1 = true
      /\ console w1
         = (if warned w then console w
            else (console w ++ [evaluateDisabledMessage])%list)
      /\ clock w1 = clock w.
Proof.
  intros input1 input2 config1 config2 [flag printed readings].
  unfold evaluateRaqbLogic, bind, warnOnce, ret. cbn.
  destruct flag; cbn; eexists; repeat split; reflexivity.
Qed.

(** ** The timing helper: failures *)

(** X2. When the timed function throws, [asyncPerf] throws the same error
    and leaves the world the function left: no second reading is taken. *)
Theorem asyncPerf_fn_throws :
  forall (A : Type) (fn : M A) (w w1 w2 : World) (t0 : Z) (e : string),
    performanceNow w = Returned t0 w1 ->
    fn w1 = Thrown e w2 ->
    asyncPerf fn w = Thrown e w2.
Proof.
  intros A fn w w1 w2 t0 e Hstart Hfn.
  unfold asyncPerf, bind. rewrite Hstart, Hfn. reflexivity.
Qed.

Lemma asyncPerf_fn_throws_witness :
  performanceNow sampleWorld
  = Returned 1000 {| warned := false; console := []; clock := [4500] |}
  /\ sampleFetch 8 1 {| warned := false; console := []; clock := [4500] |}
     = Thrown "team not found"
         {| warned := false; console := []; clock := [4500] |}
  /\ asyncPerf (sampleFetch 8 1) sampleWorld
     = Thrown "team not found"
         {| warned := false; console := []; clock := [4500] |}.
Proof.
  split; [reflexivity |]. split; [reflexivity |].
  apply (asyncPerf_fn_throws AttributesAssignmentData (sampleFetch 8 1)
           sampleWorld
           {| warned := false; console := []; clock := [4500] |}
           {| warned := false; console := []; clock := [4500] |}
           1000 "team not found"); reflexivity.
Defined.

(** X3. When the clock is gone by the time the timed function has
    returned, [asyncPerf] throws and the function's result is lost, while
    what the function did to the world stays. *)
Theorem asyncPerf_late_clock_failure :
  forall (A : Type) (fn : M A) (r : A) (w w1 w2 : World) (t0 : Z),
    performanceNow w = Returned t0 w1 ->
    fn w1 = Returned r w2 ->
    clock w2 = [] ->
    asyncPerf fn w = Thrown "performance.now is not available" w2.
Proof.
  intros A fn r w w1 w2 t0 Hstart Hfn Hclock.
  unfold asyncPerf, bind. rewrite Hstart, Hfn.
  unfold performanceNow. rewrite Hclock. reflexivity.
Qed.

Lemma asyncPerf_late_clock_failure_witness :
  performanceNow {| warned := false; console := []; clock := [1000] |}
  = Returned 1000 sampleWorldAfter
  /\ sampleFetch 7 1 sampleWorldAfter = Returned sampleAssignment sampleWorldAfter
  /\ clock sampleWorldAfter = []
  /\ asyncPerf (sampleFetch 7 1)
       {| warned := false; console := []; clock := [1000] |}
     = Thrown "performance.now is not available" sampleWorldAfter.
Proof.
  split; [reflexivity |]. split; [reflexivity |]. split; [reflexivity |].
  apply (asyncPerf_late_clock_failure AttributesAssignmentData
           (sampleFetch 7 1) sampleAssignment
           {| warned := false; console := []; clock := [1000] |}
           sampleWorldAfter sampleWorldAfter 1000); reflexivity.
Defined.

(** ** The orchestrator: what a call depends on and what it leaves *)

Section OrchestratorFurther.

Variable fetch : Z -> Z -> M AttributesAssignmentData.

(** A call, stage by stage. *)
Lemma find_stages data options w :
  findTeamMembersMatchingAttributeLogic fetch data options w
  = match performanceNow w with
    | Thrown e w1 => Thrown e w1
    | Returned t0 w1 =>
        match fetch (teamId data) (orgId data) w1 with
        | Thrown e w2 => Thrown e w2
        | Returned fetched w2 =>
            match performanceNow w2 with
            | Thrown e w3 => Thrown e w3
            | Returned t1 w3 =>
                Returned (builtResult (find_attributesQueryValue data)
                            (enableTroubleshooterOf options) fetched (t1 - t0))
                         w3
            end
        end
    end.
Proof.
  unfold findTeamMembersMatchingAttributeLogic, getAttributesForLogic,
    asyncPerf, bind, ret.
  destruct (performanceNow w) as [t0 w1 | e w1]; [| reflexivity].
  destruct (fetch (teamId data) (orgId data) w1) as [fetched w2 | e w2];
    [| reflexivity].
  destruct (performanceNow w2) as [t1 w3 | e w3]; [| reflexivity].
  cbn. unfold builtResult, enableTroubleshooterOf.
  destruct options as [[perf conc [[|] |]] |],
           (find_attributesQueryValue data); reflexivity.
Qed.

(** X4. [getAttributesForLogic] returns exactly when the clock gives a
    reading, the fetch then returns and the clock gives a second reading;
    it then hands on the fetched attributes and member assignments as they
    are, with the difference of the readings as a non-null [timeTaken]. *)
Theorem getAttributesForLogic_returns_iff :
  forall (teamId orgId : Z) (w w' : World) (res : AttributesForLogic),
    getAttributesForLogic fetch teamId orgId w = Returned res w'
    <-> exists t0 w1 fetched w2 t1,
          performanceNow w = Returned t0 w1
          /\ fetch teamId orgId w1 = Returned fetched w2
          /\ performanceNow w2 = Returned t1 w'
          /\ res = {| forLogic_attributesOfTheOrg :=
                        fetched_attributesOfTheOrg fetched;
                      forLogic_teamMembersWithAttributeOptionValuePerAttribute :=
                        attributesAssignedToTeamMembersWithOptions fetched;
                      forLogic_timeTaken := Some (t1 - t0) |}.
Proof.
  intros teamId orgId w w' res.
  unfold getAttributesForLogic, asyncPerf, bind, ret. split.
  - destruct (performanceNow w) as [t0 w1 | e w1]; [| discriminate].
    destruct (fetch teamId orgId w1) as [fetched w2 | e w2] eqn:Hfetch;
      [| discriminate].
    destruct (performanceNow w2) as [t1 w3 | e w3] eqn:Hend; [| discriminate].
    intros H. injection H as <- <-.
    exists t0, w1, fetched, w2, t1. repeat split; assumption.
  - intros (t0 & w1 & fetched & w2 & t1 & -> & -> & -> & ->). reflexivity.
Qed.

(** X5. When the fetch throws, the call throws the same error and returns
    no result; the world is the one the fetch left. *)
Theorem find_fetch_failure :
  forall (data : FindData) (options : option FindOptions) (w w1 w2 : World)
         (t0 : Z) (e : string),
    performanceNow w = Returned t0 w1 ->
    fetch (teamId data) (orgId data) w1 = Thrown e w2 ->
    findTeamMembersMatchingAttributeLogic fetch data options w = Thrown e w2.
Proof.
  intros data options w w1 w2 t0 e Hstart Hfetch.
  rewrite find_stages, Hstart, Hfetch. reflexivity.
Qed.

(** X6. A call looks at its input only through the team and organisation
    ids, whether a query is given at all, and the troubleshooter flag: two
    calls from the same world that agree on these end alike, whatever the
    query trees, the fallback, the operands, [isPreview], [enablePerf] and
    [concurrency]. *)
Theorem find_reads_little :
  forall (data1 data2 : FindData) (options1 options2 : option FindOptions)
         (w : World),
    teamId data1 = teamId data2 ->
    orgId data1 = orgId data2 ->
    hasQuery data1 = hasQuery data2 ->
    enableTroubleshooterOf options1 = enableTroubleshooterOf options2 ->
    findTeamMembersMatchingAttributeLogic fetch data1 options1 w
    = findTeamMembersMatchingAttributeLogic fetch data2 options2 w.
Proof.
  intros data1 data2 options1 options2 w Hteam Horg Hquery Hflag.
  rewrite !find_stages, Hteam, Horg, Hflag.
  destruct (performanceNow w) as [t0 w1 | e w1]; [| reflexivity].
  destruct (fetch (teamId data2) (orgId data2) w1) as [fetched w2 | e w2];
    [| reflexivity].
  destruct (performanceNow w2) as [t1 w3 | e w3]; [| reflexivity].
  f_equal. unfold hasQuery in Hquery. unfold builtResult.
  destruct (find_attributesQueryValue data1),
           (find_attributesQueryValue data2);
    try discriminate Hquery; reflexivity.
Qed.

(** X7. In a returned result the main warnings tell whether a query was
    given: they are the one message that evaluation is disabled when there
    is a query, and empty when there is none; the fallback warnings are
    always empty. *)
Theorem find_warning_iff_query :
  forall (data : FindData) (options : option FindOptions) (w w' : World)
         (res : FindResult),
    findTeamMembersMatchingAttributeLogic fetch data options w
    = Returned res w' ->
    mainAttributeLogicBuildingWarnings res
    = (if hasQuery data then [logicDisabledWarning] else [])
    /\ (mainAttributeLogicBuildingWarnings res = []
        <-> find_attributesQueryValue data = None)
    /\ fallbackAttributeLogicBuildingWarnings res = [].
Proof.
  intros data options w w' res Hfind.
  destruct (find_inv fetch data options w res w' Hfind)
    as (fetched & duration & _ & ->).
  unfold hasQuery. cbn.
  destruct (find_attributesQueryValue data) as [query |].
  - split; [reflexivity |]. split; [| reflexivity].
    split; discriminate.
  - split; [reflexivity |]. split; [| reflexivity].
    split; reflexivity.
Qed.

(** X8. With the troubleshooter enabled, a returned result carries the
    fields of the troubleshooter record at its top level, under the keys
    [type] and [data] after the five keys of every result, and has no key
    [troubleshooter]; the case is [NO_LOGIC_FOUND] also when a query was
    given, and the data hold the fixed reason and what the fetch returned. *)
Theorem find_troubleshooter_flattened :
  forall (data : FindData) (options : option FindOptions) (w w' : World)
         (res : FindResult),
    enableTroubleshooterOf options = true ->
    findTeamMembersMatchingAttributeLogic fetch data options w
    = Returned res w' ->
    resultKeys res
    = ["teamMembersMatchingAttributeLogic"; "checkedFallback";
       "mainAttributeLogicBuildingWarnings";
       "fallbackAttributeLogicBuildingWarnings"; "timeTaken"; "type"; "data"]
    /\ ~ In "troubleshooter" (resultKeys res)
    /\ type_ res = Some NO_LOGIC_FOUND
    /\ exists t0 w1 fetched w2,
         performanceNow w = Returned t0 w1
         /\ fetch (teamId data) (orgId data) w1 = Returned fetched w2
         /\ data_ res
            = Some {| reason := "Attribute routing logic disabled on server.";
                      ts_attributesOfTheOrg :=
                        fetched_attributesOfTheOrg fetched;
                      ts_teamMembersWithAttributeOptionValuePerAttribute :=
                        attributesAssignedToTeamMembersWithOptions fetched |}.
Proof.
  intros data options w w' res Hon Hfind.
  destruct (find_inv fetch data options w res w' Hfind)
    as (fetched & duration & Hdelivers & ->).
  rewrite Hon. cbn.
  split; [reflexivity |]. split.
  { intros Hin.
    repeat (destruct Hin as [Hin | Hin]; [discriminate Hin |]). exact Hin. }
  split; [reflexivity |].
  destruct Hdelivers as (t0 & w1 & w2 & t1 & Hstart & Hfetch & _ & _).
  exists t0, w1, fetched, w2. repeat split; assumption.
Qed.

(** X9. The [timeTaken] of a returned result has the single key
    [ttGetAttributesForLogic]; its duration is not null and is the second
    clock reading less the first, the two readings being the only ones the
    call takes when the fetch leaves the world alone. *)
Theorem find_timeTaken :
  forall (data : FindData) (options : option FindOptions) (w w' : World)
         (res : FindResult),
    worldPreserving fetch ->
    findTeamMembersMatchingAttributeLogic fetch data options w
    = Returned res w' ->
    exists t0 t1,
      clock w = t0 :: t1 :: clock w'
      /\ timeTaken res = [("ttGetAttributesForLogic", Some (t1 - t0))].
Proof.
  intros data options w w' res Hpure Hfind.
  destruct (find_inv fetch data options w res w' Hfind)
    as (fetched & duration & Hdelivers & ->).
  destruct Hdelivers as (t0 & w1 & w2 & t1 & Hstart & Hfetch & Hend & ->).
  specialize (Hpure (teamId data) (orgId data) w1).
  rewrite Hfetch in Hpure. subst w2.
  exists t0, t1. split; [| reflexivity].
  unfold performanceNow in Hstart, Hend.
  destruct (clock w) as [| s0 rest0]; [discriminate |].
  injection Hstart as -> <-. cbn in Hend.
  destruct rest0 as [| s1 rest1]; [discriminate |].
  injection Hend as -> <-. reflexivity.
Qed.

(** X10. A call never runs the evaluator: when the fetch leaves the world
    alone, the call, whether it returns or throws, leaves the warn-once
    flag and the console as they were. *)
Theorem find_never_warns :
  forall (data : FindData) (options : option FindOptions) (w : World),
    worldPreserving fetch ->
    match findTeamMembersMatchingAttributeLogic fetch data options w with
    | Returned _ w' => warned w' = warned w /\ console w' = console w
    | Thrown _ w' => warned w' = warned w /\ console w' = console w
    end.
Proof.
  intros data options w Hpure. rewrite find_stages.
  assert (Hnow : forall v, match performanceNow v with
                           | Returned _ v' | Thrown _ v' =>
                               warned v' = warned v /\ console v' = console v
                           end).
  { intros v. unfold performanceNow. destruct (clock v); split; reflexivity. }
  pose proof (Hnow w) as Hstart.
  destruct (performanceNow w) as [t0 w1 | e w1]; [| exact Hstart].
  pose proof (Hpure (teamId data) (orgId data) w1) as Hfetch.
  destruct (fetch (teamId data) (orgId data) w1) as [fetched w2 | e w2];
    subst w2; [| exact Hstart].
  pose proof (Hnow w1) as Hend.
  destruct (performanceNow w1) as [t1 w3 | e w3];
    destruct Hstart as [Hflag Hprinted], Hend as [Hflag' Hprinted'];
    split; congruence.
Qed.

End OrchestratorFurther.

Lemma getAttributesForLogic_returns_iff_witness :
  getAttributesForLogic sampleFetch 7 1 sampleWorld
  = Returned {| forLogic_attributesOfTheOrg := [department];
                forLogic_teamMembersWithAttributeOptionValuePerAttribute :=
                  sampleMembers;
                forLogic_timeTaken := Some 3500 |} sampleWorldAfter.
Proof.
  apply (proj2 (getAttributesForLogic_returns_iff sampleFetch 7 1 sampleWorld
                  sampleWorldAfter _)).
  exists 1000, {| warned := false; console := []; clock := [4500] |},
         sampleAssignment,
         {| warned := false; console := []; clock := [4500] |}, 4500.
  repeat split; reflexivity.
Defined.

Lemma find_fetch_failure_witness :
  performanceNow sampleWorld
  = Returned 1000 {| warned := false; console := []; clock := [4500] |}
  /\ sampleFetch (teamId unknownTeamData) (orgId unknownTeamData)
       {| warned := false; console := []; clock := [4500] |}
     = Thrown "team not found"
         {| warned := false; console := []; clock := [4500] |}
  /\ findTeamMembersMatchingAttributeLogic sampleFetch unknownTeamData
       troubleshooterOn sampleWorld
     = Thrown "team not found"
         {| warned := false; console := []; clock := [4500] |}.
Proof.
  split; [reflexivity |]. split; [reflexivity |].
  apply (find_fetch_failure sampleFetch unknownTeamData troubleshooterOn
           sampleWorld
           {| warned := false; console := []; clock := [4500] |}
           {| warned := false; console := []; clock := [4500] |}
           1000 "team not found"); reflexivity.
Defined.

Lemma find_reads_little_witness :
  teamId (sampleData (Some inSales) None)
  = teamId (sampleData (Some regionOfForm) (Some notInSales))
  /\ orgId (sampleData (Some inSales) None)
     = orgId (sampleData (Some regionOfForm) (Some notInSales))
  /\ hasQuery (sampleData (Some inSales) None)
     = hasQuery (sampleData (Some regionOfForm) (Some notInSales))
  /\ enableTroubleshooterOf None = enableTroubleshooterOf troubleshooterOff
  /\ findTeamMembersMatchingAttributeLogic sampleFetch
       (sampleData (Some inSales) None) None sampleWorld
     = findTeamMembersMatchingAttributeLogic sampleFetch
         (sampleData (Some regionOfForm) (Some notInSales)) troubleshooterOff
         sampleWorld.
Proof.
  repeat (split; [reflexivity |]).
  apply (find_reads_little sampleFetch (sampleData (Some inSales) None)
           (sampleData (Some regionOfForm) (Some notInSales))
           None troubleshooterOff sampleWorld); reflexivity.
Defined.

Lemma find_warning_iff_query_witness :
  findTeamMembersMatchingAttributeLogic sampleFetch
    (sampleData (Some inSales) None) troubleshooterOff sampleWorld
  = Returned (builtResult (Some inSales) false sampleAssignment 3500)
      sampleWorldAfter
  /\ mainAttributeLogicBuildingWarnings
       (builtResult (Some inSales) false sampleAssignment 3500)
     = [logicDisabledWarning]
  /\ fallbackAttributeLogicBuildingWarnings
       (builtResult (Some inSales) false sampleAssignment 3500) = [].
Proof.
  assert (Hfind : findTeamMembersMatchingAttributeLogic sampleFetch
                    (sampleData (Some inSales) None) troubleshooterOff
                    sampleWorld
                  = Returned (builtResult (Some inSales) false sampleAssignment
                                3500) sampleWorldAfter)
    by (vm_compute; reflexivity).
  destruct (find_warning_iff_query sampleFetch (sampleData (Some inSales) None)
              troubleshooterOff sampleWorld sampleWorldAfter _ Hfind)
    as (Hmain & _ & Hfallback).
  split; [exact Hfind |]. split; [exact Hmain | exact Hfallback].
Defined.

Lemma find_troubleshooter_flattened_witness :
  enableTroubleshooterOf troubleshooterOn = true
  /\ findTeamMembersMatchingAttributeLogic sampleFetch
       (sampleData (Some inSales) None) troubleshooterOn sampleWorld
     = Returned (builtResult (Some inSales) true sampleAssignment 3500)
         sampleWorldAfter
  /\ resultKeys (builtResult (Some inSales) true sampleAssignment 3500)
     = ["teamMembersMatchingAttributeLogic"; "checkedFallback";
        "mainAttributeLogicBuildingWarnings";
        "fallbackAttributeLogicBuildingWarnings"; "timeTaken"; "type"; "data"]
  /\ type_ (builtResult (Some inSales) true sampleAssignment 3500)
     = Some NO_LOGIC_FOUND.
Proof.
  assert (Hfind : findTeamMembersMatchingAttributeLogic sampleFetch
                    (sampleData (Some inSales) None) troubleshooterOn
                    sampleWorld
                  = Returned (builtResult (Some inSales) true sampleAssignment
                                3500) sampleWorldAfter)
    by (vm_compute; reflexivity).
  destruct (find_troubleshooter_flattened sampleFetch
              (sampleData (Some inSales) None) troubleshooterOn sampleWorld
              sampleWorldAfter _ eq_refl Hfind) as (Hkeys & _ & Htype & _).
  split; [reflexivity |]. split; [exact Hfind |].
  split; [exact Hkeys | exact Htype].
Defined.

(** The sample fetch leaves the world alone. *)
Ltac sample_fetch_pure :=
  intros teamId orgId w; unfold sampleFetch, ret, throw;
  destruct (Z.eqb teamId 7 && Z.eqb orgId 1); reflexivity.

Lemma find_timeTaken_witness :
  worldPreserving sampleFetch
  /\ findTeamMembersMatchingAttributeLogic sampleFetch
       (sampleData (Some inSales) None) troubleshooterOff sampleWorld
     = Returned (builtResult (Some inSales) false sampleAssignment 3500)
         sampleWorldAfter
  /\ exists t0 t1,
       clock sampleWorld = t0 :: t1 :: clock sampleWorldAfter
       /\ timeTaken (builtResult (Some inSales) false sampleAssignment 3500)
          = [("ttGetAttributesForLogic", Some (t1 - t0))].
Proof.
  assert (Hpure : worldPreserving sampleFetch) by sample_fetch_pure.
  assert (Hfind : findTeamMembersMatchingAttributeLogic sampleFetch
                    (sampleData (Some inSales) None) troubleshooterOff
                    sampleWorld
                  = Returned (builtResult (Some inSales) false sampleAssignment
                                3500) sampleWorldAfter)
    by (vm_compute; reflexivity).
  split; [exact Hpure |]. split; [exact Hfind |].
  exact (find_timeTaken sampleFetch (sampleData (Some inSales) None)
           troubleshooterOff sampleWorld sampleWorldAfter _ Hpure Hfind).
Defined.

Lemma find_never_warns_witness :
  worldPreserving sampleFetch
  /\ match findTeamMembersMatchingAttributeLogic sampleFetch
             (sampleData (Some inSales) None) troubleshooterOn sampleWorld with
     | Returned _ w' =>
         warned w' = warned sampleWorld /\ console w' = console sampleWorld
     | Thrown _ w' =>
         warned w' = warned sampleWorld /\ console w' = console sampleWorld
     end.
Proof.
  assert (Hpure : worldPreserving sampleFetch) by sample_fetch_pure.
  split; [exact Hpure |].
  exact (find_never_warns sampleFetch (sampleData (Some inSales) None)
           troubleshooterOn sampleWorld Hpure).
Defined.

(** ** Working hours as clock times *)

(** For every [n] below [bound], it is enough to check the numbers
    [0 .. bound - 1] one by one. *)
Lemma checked_below (check : Z -> bool) (bound : nat) :
  forallb check (map Z.of_nat (seq 0 bound)) = true ->
  forall n, 0 <= n < Z.of_nat bound -> check n = true.
Proof.
  intros Hall n Hn.
  apply (proj1 (forallb_forall check _) Hall).
  apply in_map_iff. exists (Z.to_nat n). split; [lia |].
  apply in_seq. lia.
Qed.

Lemma pad2_digits n :
  0 <= n < 100 ->
  padStart 2 "0" (intToString n)
  = String (digitChar (n / 10)) (String (digitChar (n mod 10)) "").
Proof.
  intros Hn. apply String.eqb_eq.
  apply (checked_below
           (fun n => String.eqb (padStart 2 "0" (intToString n))
                       (String (digitChar (n / 10))
                          (String (digitChar (n mod 10)) ""))) 100);
    [vm_compute; reflexivity | exact Hn].
Qed.

Lemma two_digits_read n :
  0 <= n < 100 ->
  readDecimal (String (digitChar (n / 10)) (String (digitChar (n mod 10)) ""))
  = Some n.
Proof.
  intros Hn.
  pose proof (checked_below
                (fun n => match readDecimal
                                  (String (digitChar (n / 10))
                                     (String (digitChar (n mod 10)) "")) with
                          | Some v => Z.eqb v n
                          | None => false
                          end) 100 ltac:(vm_compute; reflexivity) n Hn) as Hcheck.
  cbv beta in Hcheck.
  destruct (readDecimal _) as [v |]; [| discriminate].
  apply Z.eqb_eq in Hcheck. congruence.
Qed.

Lemma minutes_fields m :
  0 <= m < 6000 ->
  0 <= m / 60 < 100 /\ 0 <= m mod 60 < 100 /\ Z.rem m 60 = m mod 60.
Proof.
  intros Hm. split; [| split].
  - split; [apply Z.div_pos; lia | apply Z.div_lt_upper_bound; lia].
  - pose proof (Z.mod_pos_bound m 60 ltac:(lia)). lia.
  - apply Z.rem_mod_nonneg; lia.
Qed.

(** X11. For a number of minutes from 0 up to 5999, [minutesToTime] gives
    the five characters "HH:MM": two decimal digits for the hours (the
    floored quotient by 60), a colon, two decimal digits for the minutes
    left, each field padded with a zero on the left. *)
Theorem minutesToTime_format :
  forall m : Z,
    0 <= m < 6000 ->
    minutesToTime m
    = String (digitChar (m / 60 / 10))
        (String (digitChar ((m / 60) mod 10))
           (String ":"
              (String (digitChar (m mod 60 / 10))
                 (String (digitChar ((m mod 60) mod 10)) "")))).
Proof.
  intros m Hm.
  destruct (minutes_fields m Hm) as (Hhours & Hmins & Hrem).
  unfold minutesToTime. cbv zeta.
  rewrite Hrem, (pad2_digits _ Hhours), (pad2_digits _ Hmins).
  reflexivity.
Qed.

Lemma minutesToTime_format_witness :
  0 <= 545 < 6000 /\ minutesToTime 545 = "09:05".
Proof.
  split; [lia |].
  exact (minutesToTime_format 545 ltac:(lia)).
Defined.

(** X12. For minutes from 0 up to 5999 the rendering loses nothing: the
    two characters before the colon read back as the hours and the two
    after it as the minutes left, so that sixty times the first plus the
    second is the number rendered, and two different numbers of minutes
    never render alike. *)
Theorem minutesToTime_reads_back :
  forall m m' : Z,
    0 <= m < 6000 ->
    0 <= m' < 6000 ->
    (exists h r,
        readDecimal (substring 0 2 (minutesToTime m)) = Some h
        /\ readDecimal (substring 3 2 (minutesToTime m)) = Some r
        /\ h = m / 60 /\ r = m mod 60 /\ 60 * h + r = m)
    /\ (minutesToTime m = minutesToTime m' -> m = m').
Proof.
  assert (Hread : forall n, 0 <= n < 6000 ->
            readDecimal (substring 0 2 (minutesToTime n)) = Some (n / 60)
            /\ readDecimal (substring 3 2 (minutesToTime n)) = Some (n mod 60)).
  { intros n Hn.
    destruct (minutes_fields n Hn) as (Hhours & Hmins & Hrem).
    unfold minutesToTime. cbv zeta.
    rewrite Hrem, (pad2_digits _ Hhours), (pad2_digits _ Hmins).
    cbn [substring append].
    split; apply two_digits_read; assumption. }
  intros m m' Hm Hm'. split.
  - destruct (Hread m Hm) as [Hh Hr].
    exists (m / 60), (m mod 60).
    repeat split; try assumption.
    pose proof (Z.div_mod m 60 ltac:(lia)). lia.
  - intros Heq.
    destruct (Hread m Hm) as [Hh Hr], (Hread m' Hm') as [Hh' Hr'].
    rewrite Heq in Hh, Hr.
    assert (m / 60 = m' / 60) by congruence.
    assert (m mod 60 = m' mod 60) by congruence.
    pose proof (Z.div_mod m 60 ltac:(lia)).
    pose proof (Z.div_mod m' 60 ltac:(lia)). lia.
Qed.

Lemma minutesToTime_reads_back_witness :
  0 <= 1020 < 6000 /\ 0 <= 1021 < 6000
  /\ minutesToTime 1020 = "17:00"
  /\ (exists h r,
         readDecimal (substring 0 2 (minutesToTime 1020)) = Some h
         /\ readDecimal (substring 3 2 (minutesToTime 1020)) = Some r
         /\ h = 1020 / 60 /\ r = 1020 mod 60 /\ 60 * h + r = 1020)
  /\ (minutesToTime 1020 = minutesToTime 1021 -> 1020 = 1021).
Proof.
  split; [lia |]. split; [lia |]. split; [vm_compute; reflexivity |].
  exact (minutesToTime_reads_back 1020 1021 ltac:(lia) ltac:(lia)).
Defined.

(** X13. A negative number of minutes above -60 is not wrapped to the day
    before: the hours are rendered as "-1" and the minutes field is the
    negative number itself, minus sign included and not padded. *)
Theorem minutesToTime_negative :
  forall m : Z,
    -60 < m < 0 ->
    minutesToTime m = "-1:" ++ intToString m.
Proof.
  intros m Hm.
  replace m with ((m + 59) - 59) by lia.
  apply String.eqb_eq.
  apply (checked_below
           (fun k => String.eqb (minutesToTime (k - 59))
                       ("-1:" ++ intToString (k - 59))) 59);
    [vm_compute; reflexivity | lia].
Qed.

Lemma minutesToTime_negative_witness :
  -60 < -30 < 0 /\ minutesToTime (-30) = "-1:-30".
Proof.
  split; [lia |].
  exact (minutesToTime_negative (-30) ltac:(lia)).
Defined.
